(** * A containerised test pipeline for a small web service

    Shallow embedding of [dagger_module/src/dagger_testing/main.py] (the
    pipeline object [DaggerTestingExample]) and of [src/hello_world.py]
    (the service under test), followed by the properties established
    about them.

    Conventions.
    - A Python [str] is a [string]; every character stands for one code
      point below 256.
    - A Python call that may raise is a value of [Exc]; [await] is the
      monadic bind.
    - The container SDK is declarative: a container is the chain of builder
      calls that produced it, and nothing runs before [stdout] is awaited.
      What running does is decided by the container engine, which is not
      part of the repository; it enters as a record of oracles, [Engine]. *)

From Stdlib Require Import ZArith Ascii String.
From stdpp Require Import base option list strings gmap pretty.

Local Open Scope string_scope.
Local Open Scope Z_scope.
Local Open Scope list_scope.

(** * The program *)

(** ** Python strings *)

Module Py.

(** The line feed and the double quote, which have no literal form. *)
Definition LF : string := String (ascii_of_nat 10) "".
Definition DQ : string := String (ascii_of_nat 34) "".

(** [str.isspace] on the code points below 256: TAB..CR, FS..US, SPACE,
    NEL and NBSP. *)
Definition isspace (c : ascii) : bool :=
  let n := nat_of_ascii c in
  bool_decide (n ∈ [9; 10; 11; 12; 13; 28; 29; 30; 31; 32; 133; 160]%nat).

(** [s.split(sep)] for a one-character separator: every occurrence of the
    separator cuts, so the result is never empty and keeps empty fields. *)
Fixpoint split (sep : ascii) (s : string) : list string :=
  match s with
  | EmptyString => [""]
  | String c s' =>
      if Ascii.eqb c sep then "" :: split sep s'
      else match split sep s' with
           | w :: ws => String c w :: ws
           | [] => [String c ""]
           end
  end.

Fixpoint lstrip (s : string) : string :=
  match s with
  | EmptyString => ""
  | String c s' => if isspace c then lstrip s' else s
  end.

Fixpoint rstrip (s : string) : string :=
  match s with
  | EmptyString => ""
  | String c s' =>
      match rstrip s' with
      | EmptyString => if isspace c then "" else String c ""
      | r => String c r
      end
  end.

(** [s.strip()] *)
Definition strip (s : string) : string := rstrip (lstrip s).

(** [sep.join(parts)] *)
Fixpoint join (sep : string) (parts : list string) : string :=
  match parts with
  | [] => ""
  | [x] => x
  | x :: rest => x +:+ sep +:+ join sep rest
  end.

(** [s * n] *)
Fixpoint repeat (s : string) (n : nat) : string :=
  match n with
  | O => ""
  | S n' => s +:+ repeat s n'
  end.

(** [s.startswith(prefix)] *)
Definition startswith (s prefix : string) : bool := String.prefix prefix s.

End Py.

(** ** Exceptions *)

(** The exceptions the pipeline can meet.  [str_exc] is Python's [str(e)];
    for the engine's errors the text is the engine's own report. *)
Inductive PyExc : Type :=
| AttributeError (class_name attr : string)
| QueryError (text : string)
| ExecError (text : string) (cmd : list string) (exit_code : Z)
| CancelledError.

Definition str_exc (e : PyExc) : string :=
  match e with
  | AttributeError cls attr =>
      "'" +:+ cls +:+ "' object has no attribute '" +:+ attr +:+ "'"
  | QueryError text => text
  | ExecError text _ _ => text
  | CancelledError => ""
  end.

(** [isinstance(e, Exception)]: everything but the cancellation signal,
    which derives from [BaseException] only. *)
Definition is_Exception (e : PyExc) : bool :=
  match e with
  | CancelledError => false
  | _ => true
  end.

Inductive Exc (A : Type) : Type :=
| Return (a : A)
| Raise (e : PyExc).
Arguments Return {A} a.
Arguments Raise {A} e.

Definition await {A B} (m : Exc A) (k : A -> Exc B) : Exc B :=
  match m with
  | Return a => k a
  | Raise e => Raise e
  end.

Notation "x <~ m ;; k" := (await m (fun x => k))
  (at level 100, m at next level, right associativity, only parsing).

(** [try: body  except Exception as e: handler(e)] *)
Definition try_except_Exception {A} (body : Exc A) (handler : PyExc -> Exc A)
  : Exc A :=
  match body with
  | Return a => Return a
  | Raise e => if is_Exception e then handler e else Raise e
  end.

Definition returns {A} (m : Exc A) : Prop := exists a, m = Return a.
Definition raises {A} (m : Exc A) : Prop := exists e, m = Raise e.

(** ** Containers as builder chains *)

Inductive Directory : Type := DirectoryID (digest : string).
Inductive CacheVolume : Type := cache_volume (key : string).

Inductive Op : Type :=
| from_ (address : string)
| with_mounted_cache (path : string) (cache : CacheVolume)
| with_directory (path : string) (source : Directory)
| with_workdir (path : string)
| with_env_variable (name value : string)
| with_exec (args : list string)
| with_exposed_port (port : Z)
| with_service_binding (alias : string) (service : Service)
with Service : Type :=
| as_service (base : list Op) (args : list string).

(** A container is its chain of builder calls, oldest first;
    [dag.container()] is the empty chain. *)
Definition Container : Type := list Op.
Definition container : Container := [].

Definition chain (c : Container) (op : Op) : Container := c ++ [op].
Infix "▸" := chain (at level 51, left associativity).

Definition service_base (s : Service) : Container :=
  match s with as_service base _ => base end.
Definition service_args (s : Service) : list string :=
  match s with as_service _ args => args end.

Definition exposed_ports (c : Container) : list Z :=
  omap (fun op => match op with with_exposed_port p => Some p | _ => None end) c.

Definition exec_commands (c : Container) : list (list string) :=
  omap (fun op => match op with with_exec a => Some a | _ => None end) c.

(** ** The container engine

    The engine is outside the repository.  It is a record of oracles, each
    a function of the chain built so far: whether an image address
    resolves, whether a bound service comes up, what an HTTP GET issued
    from inside the container meets, and what any program other than the
    HTTP client does. *)

Inductive HttpOutcome : Type :=
| Response (status : Z) (body : string)
| ConnectionFailed.

Record ExecResult : Type := Exited { exit_code : Z; stdout_text : string }.

Record Engine : Type := {
  image_error : string -> option string;
  service_error : Service -> option string;
  http_get : Container -> string -> HttpOutcome;
  run_program : Container -> list string -> ExecResult;
  exec_error_text : list string -> ExecResult -> string
}.

(** The HTTP client, after its manual: the URL is the argument that is not
    an option; a transfer that cannot connect exits with status 7; an HTTP
    response is written to standard output and the exit status is 0
    whatever the HTTP status, unless [-f]/[--fail] is given, in which case
    a status of 400 or more exits with 22 and prints nothing. *)
Module Curl.

Definition is_option (arg : string) : bool := Py.startswith arg "-".

Definition fail_on_http_error (opts : list string) : bool :=
  existsb (fun o => String.eqb o "-f" || String.eqb o "--fail") opts.

Definition url (opts : list string) : option string :=
  last (List.filter (fun o => negb (is_option o)) opts).

Definition run (get : string -> HttpOutcome) (opts : list string)
  : ExecResult :=
  match url opts with
  | None => Exited 2 ""
  | Some u =>
      match get u with
      | ConnectionFailed => Exited 7 ""
      | Response status body =>
          if fail_on_http_error opts && (400 <=? status)
          then Exited 22 ""
          else Exited 0 body
      end
  end.

End Curl.

Definition exec_command (E : Engine) (env : Container) (args : list string)
  : ExecResult :=
  match args with
  | "curl" :: opts => Curl.run (http_get E env) opts
  | _ => run_program E env args
  end.

(** Evaluation of a chain.  [done] is the part already applied, [last] the
    standard output of the latest command.  An image that does not resolve
    and a service that does not come up raise a query error; a command that
    exits with a nonzero status raises an exec error and nothing after it
    runs. *)
Fixpoint run_chain (E : Engine) (done todo : list Op) (last : string)
  : Exc string :=
  match todo with
  | [] => Return last
  | op :: rest =>
      match op with
      | from_ address =>
          match image_error E address with
          | Some text => Raise (QueryError text)
          | None => run_chain E (done ▸ op) rest last
          end
      | with_service_binding _ svc =>
          match service_error E svc with
          | Some text => Raise (QueryError text)
          | None => run_chain E (done ▸ op) rest last
          end
      | with_exec args =>
          let r := exec_command E done args in
          if exit_code r =? 0
          then run_chain E (done ▸ op) rest (stdout_text r)
          else Raise (ExecError (exec_error_text E args r) args (exit_code r))
      | _ => run_chain E (done ▸ op) rest last
      end
  end.

(** [await c.stdout()] *)
Definition stdout (E : Engine) (c : Container) : Exc string :=
  run_chain E [] c "".

(** ** The event loop: [asyncio.gather]

    [gather] is the standard library's.  Its awaitables finish in an order
    the event loop decides: [order] lists branch indices as they finish,
    and the branches it leaves out finish after those, in launch order.
    Each result goes to the slot of its branch; the first branch that
    finishes by raising makes the whole call raise; once every branch is
    done the slots are read out by index. *)
Fixpoint gather_loop {A} (order : list nat) (tasks : list (Exc A))
    (slots : list (option A)) : Exc (list (option A)) :=
  match order with
  | [] => Return slots
  | i :: order' =>
      match tasks !! i with
      | Some (Return a) => gather_loop order' tasks (<[i := Some a]> slots)
      | Some (Raise e) => Raise e
      | None => gather_loop order' tasks slots
      end
  end.

Definition gather {A} (order : list nat) (tasks : list (Exc A))
  : Exc (list A) :=
  let n := length tasks in
  slots <~ gather_loop (order ++ seq 0 n) tasks (replicate n None);;
  Return (omap id slots).

(** ** The pipeline object: [DaggerTestingExample] *)

Definition class_name : string := "DaggerTestingExample".

(** The names the class body binds, in source order. *)
Definition class_attributes : list string :=
  [ "test_container"; "unit_test"; "unit_test_matrix"; "run_test";
    "api_service"; "test_api_service"; "integration_test" ].

(** A coroutine method called as [self.name(source, text)] and awaited. *)
Definition Method : Type := Directory -> string -> Exc string.

(** What [self.name] finds, for the attributes of that shape. *)
Record Instance : Type := { methods : gmap string Method }.

(** [self.name]: the attribute, or [AttributeError]. *)
Definition getattr (self : Instance) (name : string) : Exc Method :=
  match methods self !! name with
  | Some m => Return m
  | None => Raise (AttributeError class_name name)
  end.

Definition default_python_version : string := "3.12".
Definition default_versions : string := "3.10,3.11,3.12".

Section Methods.

Variable E : Engine.

Definition test_container (source : Directory) (python_version : string)
  : Container :=
  let uv_cache := cache_volume "uv" in
  container
    ▸ from_ ("ghcr.io/astral-sh/uv:python" +:+ python_version
             +:+ "-bookworm-slim")
    ▸ with_mounted_cache "/root/.cache/uv" uv_cache
    ▸ with_directory "/app" source
    ▸ with_workdir "/app"
    ▸ with_env_variable "UV_SYSTEM_PYTHON" "1".

Definition unit_test (source : Directory) (python_version : string)
  : Exc string :=
  stdout E
    (test_container source python_version
       ▸ with_exec ["uv"; "pip"; "install"; "-e"; ".[test]"]
       ▸ with_exec ["pytest"; "tests/unit"; "-v"; "--tb=short"]).

(** The versions a matrix run covers:
    [[v.strip() for v in versions.split(",")]] *)
Definition version_list (versions : string) : list string :=
  Py.strip <$> Py.split "," versions.

Definition passed_block (version result : string) : string :=
  "Python " +:+ version +:+ ": PASSED" +:+ Py.LF +:+ result.

Definition failed_block (version : string) (e : PyExc) : string :=
  "Python " +:+ version +:+ ": FAILED" +:+ Py.LF +:+ str_exc e.

(** What a matrix branch awaits: [await self.unit_tests(source, version)] *)
Definition branch_execution (self : Instance) (source : Directory)
    (version : string) : Exc string :=
  unit_tests <~ getattr self "unit_tests";;
  unit_tests source version.

(** The inner coroutine [test_version] of [unit_test_matrix]. *)
Definition test_version (self : Instance) (source : Directory)
    (version : string) : Exc (string * string) :=
  try_except_Exception
    (result <~ branch_execution self source version;;
     Return (version, passed_block version result))
    (fun e => Return (version, failed_block version e)).

Definition banner : string := "=== MULTI-VERSION TEST RESULTS ===".
Definition delimiter : string := Py.repeat "=" 50.

(** The loop that extends [output_lines], one result at a time. *)
Definition output_lines (results : list (string * string)) : list string :=
  foldl (fun lines r => lines ++ [r.2; delimiter; ""]) [banner; ""] results.

Definition unit_test_matrix (order : list nat) (self : Instance)
    (source : Directory) (versions : string) : Exc string :=
  results <~ gather order
               (test_version self source <$> version_list versions);;
  Return (Py.join Py.LF (output_lines results)).

Definition run_test (source : Directory) (path python_version : string)
  : Exc string :=
  stdout E
    (test_container source python_version
       ▸ with_exec ["uv"; "pip"; "install"; "-e"; ".[test]"]
       ▸ with_exec ["pytest"; path; "-v"; "--tb=short"]).

Definition api_service (source : Directory) (python_version : string)
  : Service :=
  as_service
    (test_container source python_version
       ▸ with_exec ["uv"; "pip"; "install"; "-e"; "."]
       ▸ with_exposed_port 8000)
    ["python"; "-m"; "hello_world"].

(** The probe environment of [test_api_service]. *)
Definition test_client (source : Directory) (python_version : string)
  : Container :=
  let api_svc := api_service source python_version in
  container
    ▸ from_ "alpine:latest"
    ▸ with_exec ["apk"; "add"; "--no-cache"; "curl"; "jq"]
    ▸ with_service_binding "api" api_svc.

Definition root_probe : list string := ["curl"; "-s"; "http://api:8000/"].
Definition health_probe : list string :=
  ["curl"; "-s"; "http://api:8000/health"].

Definition jq_command (response : string) : list string :=
  ["sh"; "-c"; "echo '" +:+ response +:+ "' | jq ."].

Definition success_footer : string := "All endpoints responded successfully!".

Definition result_lines (root_pretty health_pretty : string) : list string :=
  [ "=== API SERVICE TEST RESULTS ===";
    "";
    "Root Endpoint (GET /):";
    root_pretty;
    "";
    "Health Endpoint (GET /health):";
    health_pretty;
    "";
    success_footer ].

Definition test_api_service (source : Directory) (python_version : string)
  : Exc string :=
  let test_client := test_client source python_version in
  root_response <~ stdout E (test_client ▸ with_exec root_probe);;
  health_response <~ stdout E (test_client ▸ with_exec health_probe);;
  root_pretty <~ stdout E (test_client ▸ with_exec (jq_command root_response));;
  health_pretty <~
    stdout E (test_client ▸ with_exec (jq_command health_response));;
  Return (Py.join Py.LF (result_lines root_pretty health_pretty)).

Definition integration_test (source : Directory) (python_version : string)
  : Exc string :=
  let api_svc := api_service source python_version in
  stdout E
    (test_container source python_version
       ▸ with_service_binding "api" api_svc
       ▸ with_env_variable "API_BASE_URL" "http://api:8000"
       ▸ with_exec ["uv"; "pip"; "install"; "-e"; ".[test]"]
       ▸ with_exec ["pytest"; "tests/e2e"; "-v"; "--tb=short"]).

(** An instance of the class: under their names, the coroutine methods
    that can be called as [self.name(source, text)]; [run_test] is, its
    third parameter having a default.  [unit_test_matrix] goes through
    [self] only for the name [unit_tests], so its entry is built over the
    other four. *)
Definition other_methods : gmap string Method :=
  {[ "unit_test" := unit_test;
     "run_test" :=
       (fun source path => run_test source path default_python_version);
     "test_api_service" := test_api_service;
     "integration_test" := integration_test ]}.

Definition DaggerTestingExample (order : list nat) : Instance :=
  {| methods :=
       <[ "unit_test_matrix" :=
            unit_test_matrix order {| methods := other_methods |} ]>
         other_methods |}.

End Methods.

(** The delegated integration test, [tests/e2e/test_api_integration.py]:
    the one HTTP request it sends, as [requests.get] receives it. *)
Module E2E.

Record Request : Type := { url : string; timeout : option Z }.

(** The fixture [api_url]: [os.environ.get("API_BASE_URL", ...)]. *)
Definition api_url (environ : gmap string string) : string :=
  default "http://localhost:8000" (environ !! "API_BASE_URL").

(** [requests.get(api_url, timeout=1)] in [test_hello_world]. *)
Definition test_hello_world_request (environ : gmap string string)
  : Request :=
  {| url := api_url environ; timeout := Some 1 |}.

End E2E.

(** ** The service under test: [src/hello_world.py]

    The application object and its two handlers are the repository's; the
    routing is the web framework's.  [Framework] states the framework's
    rules that decide a response: the routes an application registers for
    itself when it is built with default arguments, route matching, and
    the fall-backs for a path nobody serves. *)
Module Framework.

(** The JSON values this service sends: objects whose members are
    strings, as the dictionaries the handlers return. *)
Definition Json : Type := list (string * string).

Inductive Endpoint : Type :=
| Handler (result : Json)
| OpenAPISchema
| SwaggerUI
| SwaggerUIRedirect
| ReDoc.

Record Route : Type :=
  { route_path : string; route_methods : list string; endpoint : Endpoint }.

Inductive Body : Type :=
| JsonBody (j : Json)
| Page (served_by : Endpoint)
| Empty.

Record HttpResponse : Type :=
  { status_code : Z; body : Body; location : option string }.

(** A request as the router receives it: [path] is the path of the
    request after the server has percent-decoded it. *)
Record Request : Type := { method : string; path : string }.

(** An application is its route table, in registration order. *)
Record FastAPI : Type :=
  { title : string; version : string; routes : list Route }.

(** [FastAPI(title=..., version=...)]: with the documentation addresses
    left at their defaults the constructor registers four routes of its
    own, each answering GET and HEAD. *)
Definition new (title version : string) : FastAPI :=
  {| title := title;
     version := version;
     routes :=
       [ {| route_path := "/openapi.json"; route_methods := ["GET"; "HEAD"];
            endpoint := OpenAPISchema |};
         {| route_path := "/docs"; route_methods := ["GET"; "HEAD"];
            endpoint := SwaggerUI |};
         {| route_path := "/docs/oauth2-redirect";
            route_methods := ["GET"; "HEAD"];
            endpoint := SwaggerUIRedirect |};
         {| route_path := "/redoc"; route_methods := ["GET"; "HEAD"];
            endpoint := ReDoc |} ] |}.

(** The decorator [@app.get(path)]: one more route, for GET alone. *)
Definition get (path : string) (handler : Json) (app : FastAPI) : FastAPI :=
  {| title := title app;
     version := version app;
     routes := routes app ++
               [ {| route_path := path; route_methods := ["GET"];
                    endpoint := Handler handler |} ] |}.

Inductive Match : Type := NONE | PARTIAL | FULL.

(** A route without path parameters is the pattern [^path$], matched at
    the start of the request path: it matches its own path, and its own
    path followed by one line feed, before which the final [$] stands as
    well. *)
Definition path_matches (route_path request_path : string) : bool :=
  String.eqb request_path route_path
  || String.eqb request_path (route_path +:+ Py.LF).

(** The match is partial when the method is not one of the route's. *)
Definition matches (r : Route) (req : Request) : Match :=
  if path_matches (route_path r) (path req)
  then if bool_decide (method req ∈ route_methods r) then FULL else PARTIAL
  else NONE.

Definition detail (text : string) : Body :=
  JsonBody [("detail", text)].

Definition respond (e : Endpoint) : HttpResponse :=
  match e with
  | Handler result =>
      {| status_code := 200; body := JsonBody result; location := None |}
  | other => {| status_code := 200; body := Page other; location := None |}
  end.

Definition handle (r : Route) (req : Request) : HttpResponse :=
  if bool_decide (method req ∈ route_methods r)
  then respond (endpoint r)
  else {| status_code := 405; body := detail "Method Not Allowed";
          location := None |}.

(** [path.rstrip("/")] *)
Fixpoint rstrip_slash (p : string) : string :=
  match p with
  | EmptyString => ""
  | String c p' =>
      match rstrip_slash p' with
      | EmptyString => if Ascii.eqb c "/" then "" else String c ""
      | r => String c r
      end
  end.

Definition endswith_slash (p : string) : bool :=
  negb (String.eqb (rstrip_slash p) p).

(** The address tried when no route matches: the path with its trailing
    slashes removed, or with one added. *)
Definition redirect_path (p : string) : string :=
  if endswith_slash p then rstrip_slash p else p +:+ "/".

Definition is_match (m : Match) (r : Route) (req : Request) : bool :=
  match matches r req, m with
  | FULL, FULL | PARTIAL, PARTIAL => true
  | _, _ => false
  end.

Definition any_match (r : Route) (req : Request) : bool :=
  match matches r req with NONE => false | _ => true end.

(** The router: the first full match serves the request; failing that
    the first partial match (which answers 405); failing that a redirect
    when the slash-adjusted path matches some route; else 404. *)
Definition dispatch (app : FastAPI) (req : Request) : HttpResponse :=
  match List.find (fun r => is_match FULL r req) (routes app) with
  | Some r => handle r req
  | None =>
      match List.find (fun r => is_match PARTIAL r req) (routes app) with
      | Some r => handle r req
      | None =>
          let req' := {| method := method req;
                         path := redirect_path (path req) |} in
          if negb (String.eqb (path req) "/")
             && existsb (fun r => any_match r req') (routes app)
          then {| status_code := 307; body := Empty;
                  location := Some (path req') |}
          else {| status_code := 404; body := detail "Not Found";
                  location := None |}
      end
  end.

Definition registered_paths (app : FastAPI) : list string :=
  route_path <$> routes app.

(** Some route's pattern matches the path. *)
Definition served (app : FastAPI) (request_path : string) : bool :=
  existsb (fun r => path_matches (route_path r) request_path) (routes app).

End Framework.

Module HelloWorld.
  Import Framework.

(** [async def root()] *)
Definition root : Json := [("message", "Hello, World!")].

(** [async def health_check()] *)
Definition health_check : Json :=
  [("status", "healthy"); ("service", "hello-world")].

Definition app : FastAPI :=
  get "/health" health_check
    (get "/" root (new "Hello World API" "1.0.0")).

(** The service's answer to a request. *)
Definition serve (method path : string) : HttpResponse :=
  dispatch app {| method := method; path := path |}.

End HelloWorld.

(** * Vocabulary of the properties *)

(** ** Text *)

Module Text.

Fixpoint count (sep : ascii) (s : string) : nat :=
  match s with
  | EmptyString => 0
  | String c s' => (if Ascii.eqb c sep then 1 else 0) + count sep s'
  end.

Fixpoint all_space (s : string) : bool :=
  match s with
  | EmptyString => true
  | String c s' => Py.isspace c && all_space s'
  end.

Definition first_char (s : string) : option ascii :=
  match s with
  | EmptyString => None
  | String c _ => Some c
  end.

Fixpoint last_char (s : string) : option ascii :=
  match s with
  | EmptyString => None
  | String c EmptyString => Some c
  | String _ s' => last_char s'
  end.

(** Neither end of the string is a whitespace character. *)
Definition trimmed (s : string) : Prop :=
  (forall c, first_char s = Some c -> Py.isspace c = false) /\
  (forall c, last_char s = Some c -> Py.isspace c = false).

(** [sub] occurs in [s]. *)
Definition contains (s sub : string) : Prop :=
  exists pre post, s = pre +:+ sub +:+ post.

End Text.

(** ** Reports *)

(** The verdict line that opens a block. *)
Definition labelled (version verdict block : string) : Prop :=
  exists text,
    block = "Python " +:+ version +:+ ": " +:+ verdict +:+ Py.LF +:+ text.

(** The block a branch contributes. *)
Definition branch_block (self : Instance) (source : Directory)
    (version : string) : string :=
  match branch_execution self source version with
  | Return result => passed_block version result
  | Raise e => failed_block version e
  end.

(** The report made of the given blocks: banner, blank line, then every
    block followed by the delimiter and a blank line. *)
Definition report_of (blocks : list string) : string :=
  Py.join Py.LF
    ([banner; ""] ++ concat ((fun b => [b; delimiter; ""]) <$> blocks)).

(** Every branch of the run either returns or raises an error, that is an
    instance of [Exception]. *)
Definition errors_only (self : Instance) (source : Directory)
    (versions : string) : bool :=
  forallb (fun v => match branch_execution self source v with
                    | Return _ => true
                    | Raise e => is_Exception e
                    end) (version_list versions).

Definition is_return {A} (m : Exc A) : bool :=
  match m with Return _ => true | Raise _ => false end.

(** ** Slots of a gathering *)

(** One branch delivers its value. *)
Definition deliver {A} (xs : list A) (slots : list (option A)) (i : nat)
  : list (option A) :=
  match xs !! i with
  | Some a => <[i := Some a]> slots
  | None => slots
  end.

(** The slots after the branches of [order] have delivered, when every
    branch delivers a value. *)
Definition fill {A} (order : list nat) (xs : list A)
    (slots : list (option A)) : list (option A) :=
  foldl (deliver xs) slots order.

(** ** Commands and probes *)

(** The step a command adds to a chain. *)
Definition exec_step (E : Engine) (env : Container) (args : list string)
  : Exc string :=
  let r := exec_command E env args in
  if exit_code r =? 0 then Return (stdout_text r)
  else Raise (ExecError (exec_error_text E args r) args (exit_code r)).

(** The command runner: the commands are layered on the environment in
    order and the output of the last one is captured. *)
Definition run_commands (E : Engine) (env : Container)
    (commands : list (list string)) : Exc string :=
  stdout E (foldl (fun c args => c ▸ with_exec args) env commands).

Definition root_url : string := "http://api:8000/".
Definition health_url : string := "http://api:8000/health".


(** What a silent probe of [url] contributes to the run. *)
Definition probe (E : Engine) (env : Container) (url : string) : Exc string :=
  match http_get E env url with
  | Response _ body => Return body
  | ConnectionFailed =>
      Raise (ExecError (exec_error_text E ["curl"; "-s"; url] (Exited 7 ""))
               ["curl"; "-s"; url] 7)
  end.

(** The options by which the HTTP client bounds the time of a transfer,
    with the value attached or in the next argument. *)
Definition timeout_options : list string :=
  ["-m"; "--max-time"; "--connect-timeout"].

Definition has_timeout_option (args : list string) : bool :=
  existsb (fun a => existsb (Py.startswith a) timeout_options) args.

(** The containers whose output [test_api_service] awaits, in order. *)
Definition awaited_containers (source : Directory) (python_version : string)
    (root_response health_response : string) : list Container :=
  let test_client := test_client source python_version in
  [ test_client ▸ with_exec root_probe;
    test_client ▸ with_exec health_probe;
    test_client ▸ with_exec (jq_command root_response);
    test_client ▸ with_exec (jq_command health_response) ].

(** The commands of a chain that call the HTTP client. *)
Definition curl_commands (c : Container) : list (list string) :=
  List.filter (fun args => bool_decide (head args = Some "curl"))
    (exec_commands c).

(** ** Sample engines and instances, for the concrete runs below *)

Module Sample.

Definition source : Directory := DirectoryID "sha256:4f1c".

(** Every image resolves, every service comes up, every program exits
    with status 0, the service answers 200. *)
Definition passing_engine : Engine :=
  {| image_error := fun _ => None;
     service_error := fun _ => None;
     http_get := fun _ _ => Response 200 "{}";
     run_program := fun _ args => Exited 0 (Py.join " " args +:+ ": ok");
     exec_error_text := fun args _ => "exit: " +:+ Py.join " " args |}.

(** As [passing_engine], but no image exists for the version
    [bad-version]. *)
Definition bad_version_engine : Engine :=
  {| image_error := fun address =>
       if String.eqb address "ghcr.io/astral-sh/uv:pythonbad-version-bookworm-slim"
       then Some "failed to resolve image: not found"
       else None;
     service_error := fun _ => None;
     http_get := fun _ _ => Response 200 "{}";
     run_program := fun _ args => Exited 0 (Py.join " " args +:+ ": ok");
     exec_error_text := fun args _ => "exit: " +:+ Py.join " " args |}.

(** The body [{"detail":"Not Found"}] and the way the JSON formatter
    prints it. *)
Definition not_found_body : string :=
  "{" +:+ Py.DQ +:+ "detail" +:+ Py.DQ +:+ ":"
      +:+ Py.DQ +:+ "Not Found" +:+ Py.DQ +:+ "}".
Definition not_found_pretty : string :=
  "{" +:+ Py.LF +:+ "  " +:+ Py.DQ +:+ "detail" +:+ Py.DQ +:+ ": "
      +:+ Py.DQ +:+ "Not Found" +:+ Py.DQ +:+ Py.LF +:+ "}" +:+ Py.LF.

(** As [passing_engine], but the service answers 404 to every request,
    and the shell pipeline prints the formatted body. *)
Definition not_found_engine : Engine :=
  {| image_error := fun _ => None;
     service_error := fun _ => None;
     http_get := fun _ _ => Response 404 not_found_body;
     run_program := fun _ args =>
       match args with
       | "sh" :: _ => Exited 0 not_found_pretty
       | _ => Exited 0 ""
       end;
     exec_error_text := fun args _ => "exit: " +:+ Py.join " " args |}.

(** As [passing_engine], but nothing listens at the service's address. *)
Definition dead_service_engine : Engine :=
  {| image_error := fun _ => None;
     service_error := fun _ => None;
     http_get := fun _ _ => ConnectionFailed;
     run_program := fun _ args => Exited 0 (Py.join " " args +:+ ": ok");
     exec_error_text := fun args _ => "exit: " +:+ Py.join " " args |}.

(** An instance on which the name [unit_tests] resolves, to the method
    [unit_test]. *)
Definition with_unit_tests (E : Engine) : Instance :=
  {| methods := <[ "unit_tests" := unit_test E ]> (other_methods E) |}.

End Sample.

(** ** Stages and their addresses *)

(** The chain [run_test] evaluates. *)
Definition run_test_container (source : Directory)
    (path python_version : string) : Container :=
  test_container source python_version
    ▸ with_exec ["uv"; "pip"; "install"; "-e"; ".[test]"]
    ▸ with_exec ["pytest"; path; "-v"; "--tb=short"].





(** The image a version selects. *)
Definition image_of (python_version : string) : string :=
  "ghcr.io/astral-sh/uv:python" +:+ python_version +:+ "-bookworm-slim".

Definition install_for_tests : list string :=
  ["uv"; "pip"; "install"; "-e"; ".[test]"].

Definition pytest_at (path : string) : list string :=
  ["pytest"; path; "-v"; "--tb=short"].

Definition comma_free (s : string) : bool :=
  Nat.eqb (Text.count "," s) 0.

(** An instance whose [unit_tests] is cancelled while it is awaited. *)
Definition cancelled_instance : Instance :=
  {| methods := {[ "unit_tests" := fun _ _ => Raise CancelledError ]} |}.

(** ** The unit tests of the service: [tests/unit/test_hello_world.py] *)

Module UnitTests.
Import Framework.

(** The test client: [client.get(path)], [client.post(path)]. *)
Record TestClient : Type := { client_app : FastAPI }.

Definition client_get (client : TestClient) (path : string) : HttpResponse :=
  dispatch (client_app client) {| method := "GET"; path := path |}.

Definition client_post (client : TestClient) (path : string) : HttpResponse :=
  dispatch (client_app client) {| method := "POST"; path := path |}.

(** [response.json()], for the bodies that are JSON objects. *)
Definition json (r : HttpResponse) : option Json :=
  match body r with
  | JsonBody j => Some j
  | _ => None
  end.

(** [response.headers["content-type"]]: a JSON response is sent as
    [application/json]. *)
Definition content_type (r : HttpResponse) : option string :=
  match body r with
  | JsonBody _ => Some "application/json"
  | Page OpenAPISchema => Some "application/json"
  | Page _ => Some "text/html; charset=utf-8"
  | Empty => None
  end.

(** [json_data[key]] *)
Definition item (key : string) (j : Json) : option string :=
  snd <$> List.find (fun kv => String.eqb (fst kv) key) j.

(** [set(json_data.keys())] *)
Definition keys (j : Json) : gset string := list_to_set (fst <$> j).

(** The fixture [client]. *)
Definition client : TestClient := {| client_app := HelloWorld.app |}.

(** The test functions; each is the conjunction of its assertions. *)
Definition test_root_returns_success_status (c : TestClient) : bool :=
  status_code (client_get c "/") =? 200.

Definition test_root_returns_hello_world_message (c : TestClient) : bool :=
  let response := client_get c "/" in
  bool_decide (json response = Some [("message", "Hello, World!")])
  && bool_decide (content_type response = Some "application/json").

Definition test_root_response_is_json (c : TestClient) : bool :=
  match json (client_get c "/") with
  | Some json_data => bool_decide ("message" ∈ keys json_data)
  | None => false
  end.

Definition test_health_returns_success_status (c : TestClient) : bool :=
  status_code (client_get c "/health") =? 200.

Definition test_health_returns_healthy_status (c : TestClient) : bool :=
  match json (client_get c "/health") with
  | Some json_data =>
      bool_decide (item "status" json_data = Some "healthy")
      && bool_decide (item "service" json_data = Some "hello-world")
  | None => false
  end.

Definition test_health_response_structure (c : TestClient) : bool :=
  match json (client_get c "/health") with
  | Some json_data => bool_decide (keys json_data = {["status"; "service"]})
  | None => false
  end.

Definition test_nonexistent_endpoint_returns_404 (c : TestClient) : bool :=
  status_code (client_get c "/nonexistent") =? 404.

Definition test_invalid_method_returns_405 (c : TestClient) : bool :=
  status_code (client_post c "/") =? 405.

Definition suite : list (TestClient -> bool) :=
  [ test_root_returns_success_status;
    test_root_returns_hello_world_message;
    test_root_response_is_json;
    test_health_returns_success_status;
    test_health_returns_healthy_status;
    test_health_response_structure;
    test_nonexistent_endpoint_returns_404;
    test_invalid_method_returns_405 ].

End UnitTests.

(** * Properties *)

(** ** Splitting and trimming *)

Module PyFacts.

Import Text.

Lemma split_length sep s : length (Py.split sep s) = S (count sep s).
Proof.
  induction s as [|c s IH]; simpl; [reflexivity|].
  destruct (Ascii.eqb c sep); simpl.
  - now rewrite IH.
  - destruct (Py.split sep s) as [|w ws]; simpl in *; [discriminate|lia].
Qed.


Lemma join_cons sep x y ys :
  Py.join sep (x :: y :: ys) = x +:+ sep +:+ Py.join sep (y :: ys).
Proof. reflexivity. Qed.


Lemma lstrip_spec s :
  exists l, s = l +:+ Py.lstrip s /\ all_space l = true /\
            forall c, first_char (Py.lstrip s) = Some c ->
                      Py.isspace c = false.
Proof.
  induction s as [|c s (l & Hl & Hsp & Hfst)]; simpl.
  - exists "". split; [reflexivity|]. split; [reflexivity|discriminate].
  - destruct (Py.isspace c) eqn:Hc.
    + exists (String c l). simpl. rewrite Hc, Hsp.
      split; [rewrite Hl at 1; reflexivity|]. split; [reflexivity|assumption].
    + exists "". split; [reflexivity|]. split; [reflexivity|].
      simpl. intros c' [= <-]. assumption.
Qed.

Lemma rstrip_first s c :
  first_char (Py.rstrip s) = Some c -> first_char s = Some c.
Proof.
  destruct s as [|d s]; simpl; [discriminate|].
  destruct (Py.rstrip s); [destruct (Py.isspace d)|]; simpl; congruence.
Qed.

Lemma rstrip_last s c :
  last_char (Py.rstrip s) = Some c -> Py.isspace c = false.
Proof.
  induction s as [|d s IH]; simpl; [discriminate|].
  destruct (Py.rstrip s) as [|e r] eqn:Hr.
  - destruct (Py.isspace d) eqn:Hd; simpl; [discriminate|].
    intros [= <-]. assumption.
  - simpl. exact IH.
Qed.

Lemma rstrip_spec s :
  exists r, s = Py.rstrip s +:+ r /\ all_space r = true.
Proof.
  induction s as [|d s (r & Hr & Hsp)]; simpl.
  - exists "". split; reflexivity.
  - destruct (Py.rstrip s) as [|e t] eqn:Ht.
    + destruct (Py.isspace d) eqn:Hd.
      * exists (String d r). simpl. rewrite Hd, Hsp.
        split; [rewrite Hr at 1|]; reflexivity.
      * exists r. split; [rewrite Hr at 1; reflexivity|assumption].
    + exists r. split; [rewrite Hr at 1; reflexivity|assumption].
Qed.

Lemma strip_trimmed s : trimmed (Py.strip s).
Proof.
  unfold Py.strip. split.
  - intros c Hc. apply rstrip_first in Hc.
    destruct (lstrip_spec s) as (_ & _ & _ & H). now apply H.
  - apply rstrip_last.
Qed.

(** Trimming removes whitespace at the two ends and nothing else. *)
Lemma strip_spec s :
  exists l r, s = l +:+ Py.strip s +:+ r /\
              all_space l = true /\ all_space r = true.
Proof.
  destruct (lstrip_spec s) as (l & Hl & Hsp & _).
  destruct (rstrip_spec (Py.lstrip s)) as (r & Hr & Hsr).
  exists l, r. unfold Py.strip. now rewrite <- Hr.
Qed.

End PyFacts.

(** ** Appending *)

Lemma append_assoc (a b c : string) : (a +:+ b) +:+ c = a +:+ b +:+ c.
Proof.
  induction a as [|x a IH]; [reflexivity|].
  change (String x ((a +:+ b) +:+ c) = String x (a +:+ b +:+ c)).
  now rewrite IH.
Qed.

Lemma append_nil_r (a : string) : a +:+ "" = a.
Proof.
  induction a as [|x a IH]; [reflexivity|].
  change (String x (a +:+ "") = String x a). now rewrite IH.
Qed.

Lemma append_length (a b : string) :
  String.length (a +:+ b) = (String.length a + String.length b)%nat.
Proof.
  induction a as [|x a IH]; [reflexivity|].
  change (S (String.length (a +:+ b))
          = S (String.length a + String.length b)). now rewrite IH.
Qed.

Lemma append_inj_l (a b suffix : string) :
  a +:+ suffix = b +:+ suffix -> a = b.
Proof.
  revert b. induction a as [|x a IH]; intros [|y b] H.
  - reflexivity.
  - apply (f_equal String.length) in H. rewrite !append_length in H.
    simpl in H. lia.
  - apply (f_equal String.length) in H. rewrite !append_length in H.
    simpl in H. lia.
  - injection H as -> H. f_equal. now apply IH.
Qed.

Lemma join_contains sep (lines : list string) x :
  x ∈ lines -> Text.contains (Py.join sep lines) x.
Proof.
  induction lines as [|y [|z lines] IH]; intros Hx.
  - now apply elem_of_nil in Hx.
  - apply list_elem_of_singleton in Hx as ->.
    exists "", "". simpl. now rewrite append_nil_r.
  - rewrite PyFacts.join_cons.
    apply elem_of_cons in Hx as [->|Hx].
    + exists "", (sep +:+ Py.join sep (z :: lines)). reflexivity.
    + destruct (IH Hx) as (pre & post & ->).
      exists (y +:+ sep +:+ pre), post. now rewrite !append_assoc.
Qed.

(** ** Gathering concurrent branches *)

Section GatherFacts.

Local Open Scope nat_scope.
Context {A : Type}.
Implicit Types (xs : list A) (order : list nat) (slots : list (option A)).

Lemma fill_cons i order xs slots :
  fill (i :: order) xs slots = fill order xs (deliver xs slots i).
Proof. reflexivity. Qed.

Lemma deliver_length xs slots i :
  length (deliver xs slots i) = length slots.
Proof.
  unfold deliver. destruct (xs !! i); [apply length_insert|reflexivity].
Qed.

Lemma gather_loop_returns order xs slots :
  gather_loop order (Return <$> xs) slots = Return (fill order xs slots).
Proof.
  revert slots. induction order as [|i order IH]; intros slots.
  - reflexivity.
  - rewrite fill_cons. simpl. rewrite list_lookup_fmap. unfold deliver.
    destruct (xs !! i); simpl; apply IH.
Qed.

Lemma fill_length order xs slots :
  length (fill order xs slots) = length slots.
Proof.
  revert slots. induction order as [|i order IH]; intros slots.
  - reflexivity.
  - rewrite fill_cons, IH. apply deliver_length.
Qed.

Lemma fill_lookup_other i order xs slots :
  i ∉ order -> fill order xs slots !! i = slots !! i.
Proof.
  revert slots. induction order as [|j order IH]; intros slots Hi.
  - reflexivity.
  - apply not_elem_of_cons in Hi as [Hne Hi].
    rewrite fill_cons, IH by assumption. unfold deliver.
    destruct (xs !! j); [|reflexivity].
    apply list_lookup_insert_ne. congruence.
Qed.

Lemma fill_lookup i a order xs slots :
  i ∈ order -> xs !! i = Some a -> length slots = length xs ->
  fill order xs slots !! i = Some (Some a).
Proof.
  revert slots. induction order as [|j order IH]; intros slots Hi Ha Hlen.
  - now apply elem_of_nil in Hi.
  - rewrite fill_cons. destruct (decide (i ∈ order)) as [Hin|Hout].
    + apply IH; [assumption..|]. now rewrite deliver_length.
    + apply elem_of_cons in Hi as [->|Hin]; [|contradiction].
      rewrite fill_lookup_other by assumption. unfold deliver. rewrite Ha.
      apply list_lookup_insert_eq. rewrite Hlen.
      eapply lookup_lt_Some, Ha.
Qed.

Lemma fill_all order xs slots :
  length slots = length xs ->
  (forall i, i < length xs -> i ∈ order) ->
  fill order xs slots = Some <$> xs.
Proof.
  intros Hlen Hall. apply list_eq. intros i.
  rewrite list_lookup_fmap. destruct (xs !! i) as [a|] eqn:Ha; simpl.
  - apply fill_lookup; [|assumption..].
    apply Hall. eapply lookup_lt_Some, Ha.
  - apply lookup_ge_None. rewrite fill_length, Hlen.
    now apply lookup_ge_None.
Qed.

Lemma omap_id_Some xs : omap id (Some <$> xs) = xs.
Proof.
  induction xs as [|x xs IH]; [reflexivity|].
  rewrite fmap_cons. cbn. now f_equal.
Qed.

(** When every branch delivers a value, [gather] delivers the values in
    launch order, whatever the order of completion. *)
Lemma gather_returns order xs : gather order (Return <$> xs) = Return xs.
Proof.
  unfold gather. rewrite gather_loop_returns, length_fmap. unfold await.
  rewrite fill_all.
  - now rewrite omap_id_Some.
  - apply length_replicate.
  - intros i Hi. apply elem_of_app. right. apply elem_of_seq. lia.
Qed.

Lemma gather_loop_raises i e order (tasks : list (Exc A)) slots :
  i ∈ order -> tasks !! i = Some (Raise e) ->
  raises (gather_loop order tasks slots).
Proof.
  revert slots. induction order as [|j order IH]; intros slots Hi He.
  - now apply elem_of_nil in Hi.
  - simpl. destruct (tasks !! j) as [[a|e']|] eqn:Hj.
    + apply IH; [|assumption].
      apply elem_of_cons in Hi as [->|Hin]; [congruence|assumption].
    + now exists e'.
    + apply IH; [|assumption].
      apply elem_of_cons in Hi as [->|Hin]; [congruence|assumption].
Qed.

(** When some branch raises, so does [gather]. *)
Lemma gather_raises i e order (tasks : list (Exc A)) :
  tasks !! i = Some (Raise e) -> raises (gather order tasks).
Proof.
  intros He. unfold gather.
  destruct (gather_loop_raises i e (order ++ seq 0 (length tasks)) tasks
              (replicate (length tasks) None)) as [e' He']; [|assumption|].
  - apply elem_of_app. right. apply elem_of_seq.
    apply lookup_lt_Some in He. lia.
  - exists e'. now rewrite He'.
Qed.

End GatherFacts.

(** ** Running chains *)

Section ChainFacts.

Variable E : Engine.

(** Layered execution: what runs after a chain runs on top of it. *)
Lemma run_chain_app done a b last :
  run_chain E done (a ++ b) last
  = (out <~ run_chain E done a last;; run_chain E (done ++ a) b out).
Proof.
  revert done last. induction a as [|op a IH]; intros done last.
  - simpl. now rewrite app_nil_r.
  - assert (forall out, run_chain E (done ▸ op) (a ++ b) out
              = (o <~ run_chain E (done ▸ op) a out;;
                 run_chain E (done ++ op :: a) b o)) as Hnext.
    { intros out. rewrite IH. unfold chain.
      now rewrite <- app_assoc. }
    destruct op; simpl; try apply Hnext.
    + destruct (image_error E address); [reflexivity|apply Hnext].
    + destruct (exit_code (exec_command E done args) =? 0);
        [apply Hnext|reflexivity].
    + destruct (service_error E service); [reflexivity|apply Hnext].
Qed.

Lemma stdout_with_exec c args :
  stdout E (c ▸ with_exec args)
  = (_ <~ stdout E c;; exec_step E c args).
Proof.
  unfold stdout, chain. rewrite run_chain_app. simpl.
  destruct (run_chain E [] c ""); simpl; [|reflexivity].
  unfold exec_step.
  now destruct (exit_code (exec_command E c args) =? 0).
Qed.

(** What [curl -s url] does, by what the request meets. *)
Lemma curl_silent env (url : string) :
  Curl.is_option url = false ->
  exec_command E env ["curl"; "-s"; url]
  = match http_get E env url with
    | ConnectionFailed => Exited 7 ""
    | Response _ body => Exited 0 body
    end.
Proof.
  intros Hurl. unfold exec_command, Curl.run, Curl.url. simpl.
  rewrite Hurl. simpl.
  destruct (String.eqb_spec url "-f") as [->|_]; [discriminate|].
  destruct (String.eqb_spec url "--fail") as [->|_]; [discriminate|].
  now destruct (http_get E env url).
Qed.

End ChainFacts.

Lemma exec_step_probe E env url :
  Curl.is_option url = false ->
  exec_step E env ["curl"; "-s"; url] = probe E env url.
Proof.
  intros Hurl. unfold exec_step, probe. rewrite curl_silent by assumption.
  now destruct (http_get E env url).
Qed.

(** [test_api_service], step by step: the probe environment is set up, the
    two probes run, the two answers are formatted. *)
Lemma test_api_service_steps E source python_version :
  let env := test_client source python_version in
  test_api_service E source python_version
  = (_ <~ stdout E env;;
     root_response <~ probe E env root_url;;
     health_response <~ probe E env health_url;;
     root_pretty <~ exec_step E env (jq_command root_response);;
     health_pretty <~ exec_step E env (jq_command health_response);;
     Return (Py.join Py.LF (result_lines root_pretty health_pretty))).
Proof.
  intros env. unfold test_api_service. fold env.
  rewrite !stdout_with_exec. unfold root_probe, health_probe.
  rewrite !exec_step_probe by reflexivity. fold root_url health_url.
  destruct (stdout E env) as [out|e] eqn:Hsetup; simpl; [|reflexivity].
  destruct (probe E env root_url) as [b1|]; simpl; [|reflexivity].
  destruct (probe E env health_url) as [b2|]; simpl; [|reflexivity].
  rewrite !stdout_with_exec, Hsetup. reflexivity.
Qed.

(** ** The version matrix *)

Section MatrixFacts.

Local Open Scope nat_scope.

Lemma passed_block_labelled version result :
  labelled version "PASSED" (passed_block version result).
Proof. now exists result. Qed.

Lemma failed_block_labelled version e :
  labelled version "FAILED" (failed_block version e).
Proof. now exists (str_exc e). Qed.

Lemma branch_block_labelled self source version :
  labelled version "PASSED" (branch_block self source version) \/
  labelled version "FAILED" (branch_block self source version).
Proof.
  unfold branch_block. destruct (branch_execution self source version).
  - left. apply passed_block_labelled.
  - right. apply failed_block_labelled.
Qed.

Lemma test_version_returns self source version :
  (forall e, branch_execution self source version = Raise e ->
             is_Exception e = true) ->
  test_version self source version
  = Return (version, branch_block self source version).
Proof.
  intros Hexc. unfold test_version, branch_block.
  destruct (branch_execution self source version) as [result|e]; simpl.
  - reflexivity.
  - now rewrite (Hexc e eq_refl).
Qed.

(** A branch that is cancelled is not caught. *)
Lemma test_version_cancelled self source version :
  branch_execution self source version = Raise CancelledError ->
  test_version self source version = Raise CancelledError.
Proof. intros H. unfold test_version. now rewrite H. Qed.

Lemma output_lines_from (acc : list string) (results : list (string * string)) :
  foldl (fun lines r => lines ++ [r.2; delimiter; ""]) acc results
  = acc ++ concat ((fun r => [r.2; delimiter; ""]) <$> results).
Proof.
  revert acc. induction results as [|r results IH]; intros acc; simpl.
  - now rewrite app_nil_r.
  - rewrite IH, <- app_assoc. reflexivity.
Qed.

Lemma output_lines_spec results :
  output_lines results
  = [banner; ""] ++ concat ((fun r => [r.2; delimiter; ""]) <$> results).
Proof. apply output_lines_from. Qed.

(** The report of a matrix run whose branches raise errors only: one
    block per entry of the version list, in the order of the list, for
    every order of completion. *)
Lemma matrix_report order self source versions :
  (forall v e, v ∈ version_list versions ->
               branch_execution self source v = Raise e ->
               is_Exception e = true) ->
  unit_test_matrix order self source versions
  = Return (report_of (branch_block self source <$> version_list versions)).
Proof.
  intros Hexc. unfold unit_test_matrix.
  assert (test_version self source <$> version_list versions
          = Return <$> ((fun v => (v, branch_block self source v))
                          <$> version_list versions)) as ->.
  { rewrite <- list_fmap_compose. apply list_fmap_ext. intros i v Hv. simpl.
    apply test_version_returns. intros e.
    apply Hexc. eapply list_elem_of_lookup_2, Hv. }
  rewrite gather_returns. unfold await, report_of.
  now rewrite output_lines_spec, <- !list_fmap_compose.
Qed.

(** A cancelled branch cancels the matrix run. *)
Lemma matrix_cancelled order self source versions v :
  v ∈ version_list versions ->
  branch_execution self source v = Raise CancelledError ->
  raises (unit_test_matrix order self source versions).
Proof.
  intros Hv Hc. apply list_elem_of_lookup_1 in Hv as [i Hi].
  destruct (gather_raises i CancelledError order
              (test_version self source <$> version_list versions))
    as [e He].
  - rewrite list_lookup_fmap, Hi. simpl.
    now rewrite test_version_cancelled.
  - exists e. unfold unit_test_matrix. now rewrite He.
Qed.

Lemma version_list_length versions :
  length (version_list versions) = S (Text.count "," versions).
Proof.
  unfold version_list. now rewrite length_fmap, PyFacts.split_length.
Qed.

(** The class binds [unit_test]; nothing in it is called [unit_tests]. *)
Lemma class_binds_unit_test :
  "unit_test" ∈ class_attributes /\ "unit_tests" ∉ class_attributes.
Proof. split; apply (bool_decide_unpack _); exact I. Qed.

Lemma instance_unit_test E order :
  methods (DaggerTestingExample E order) !! "unit_test" = Some (unit_test E).
Proof. reflexivity. Qed.

Lemma instance_unit_tests E order :
  methods (DaggerTestingExample E order) !! "unit_tests" = None.
Proof. reflexivity. Qed.

Lemma instance_branch_execution E order source version :
  branch_execution (DaggerTestingExample E order) source version
  = Raise (AttributeError class_name "unit_tests").
Proof.
  unfold branch_execution, getattr. now rewrite instance_unit_tests.
Qed.

(** A matrix run goes through [self] for the name [unit_tests] only. *)
Lemma unit_test_matrix_lookup order self self' source versions :
  methods self !! "unit_tests" = methods self' !! "unit_tests" ->
  unit_test_matrix order self source versions
  = unit_test_matrix order self' source versions.
Proof.
  intros Hsame. unfold unit_test_matrix.
  assert (test_version self source <$> version_list versions
          = test_version self' source <$> version_list versions) as ->;
    [|reflexivity].
  apply list_fmap_ext. intros i v _.
  unfold test_version, branch_execution, getattr. now rewrite Hsame.
Qed.

(** The entry of [unit_test_matrix] in the class's instance is the method
    applied to that very instance. *)
Lemma instance_unit_test_matrix E order :
  exists m,
    methods (DaggerTestingExample E order) !! "unit_test_matrix" = Some m /\
    forall source versions,
      m source versions
      = unit_test_matrix order (DaggerTestingExample E order) source versions.
Proof.
  eexists. split; [reflexivity|]. intros source versions.
  apply unit_test_matrix_lookup. reflexivity.
Qed.

End MatrixFacts.

Lemma errors_only_spec self source versions :
  errors_only self source versions = true ->
  forall v e, v ∈ version_list versions ->
              branch_execution self source v = Raise e ->
              is_Exception e = true.
Proof.
  unfold errors_only. intros H v e Hv He.
  rewrite forallb_forall in H. apply list_elem_of_In in Hv.
  specialize (H v Hv). now rewrite He in H.
Qed.

(** What the engine raises is an error: evaluation of a chain never
    raises the cancellation signal. *)
Lemma run_chain_raises_errors E done todo last e :
  run_chain E done todo last = Raise e -> is_Exception e = true.
Proof.
  revert done last. induction todo as [|op todo IH]; intros done last.
  - discriminate.
  - destruct op; simpl; try apply IH.
    + destruct (image_error E address); [now intros [= <-]|apply IH].
    + destruct (exit_code (exec_command E done args) =? 0);
        [apply IH|now intros [= <-]].
    + destruct (service_error E service); [now intros [= <-]|apply IH].
Qed.

Lemma forallb_intro {A} (f : A -> bool) (l : list A) :
  (forall x, f x = true) -> forallb f l = true.
Proof. intros Hf. apply forallb_forall. intros x _. apply Hf. Qed.

(** On the class's own instance every branch raises an error, the
    [AttributeError]. *)
Lemma instance_errors_only E order source versions :
  errors_only (DaggerTestingExample E order) source versions = true.
Proof.
  unfold errors_only. apply forallb_intro. intros v.
  now rewrite instance_branch_execution.
Qed.

(** On an instance where [unit_tests] resolves to [unit_test], a branch
    returns or raises an error of the engine. *)
Lemma with_unit_tests_errors_only E source versions :
  errors_only (Sample.with_unit_tests E) source versions = true.
Proof.
  unfold errors_only. apply forallb_intro. intros v.
  change (branch_execution (Sample.with_unit_tests E) source v)
    with (unit_test E source v).
  destruct (unit_test E source v) as [out|e] eqn:Hrun; [reflexivity|].
  eapply run_chain_raises_errors, Hrun.
Qed.

(** ** Reports of the version matrix *)

(** C1. In a matrix run whose branches raise errors only, the run returns
    a report, and every branch whose test execution raised an error [e] is
    rendered as the block [Python <version>: FAILED] followed by the text
    of [e]; that block occurs in the report.  No branch error leaves
    [unit_test_matrix]. *)
Theorem branch_errors_become_failed_blocks order self source versions :
  errors_only self source versions = true ->
  exists report,
    unit_test_matrix order self source versions = Return report /\
    forall v e,
      v ∈ version_list versions ->
      branch_execution self source v = Raise e ->
      test_version self source v = Return (v, failed_block v e) /\
      labelled v "FAILED" (failed_block v e) /\
      Text.contains (failed_block v e) (str_exc e) /\
      Text.contains report (failed_block v e).
Proof.
  intros Hok. pose proof (errors_only_spec _ _ _ Hok) as Hexc.
  eexists. split; [now apply matrix_report|].
  intros v e Hv He. split; [|split; [|split]].
  - rewrite test_version_returns by (intros e'; now apply Hexc).
    unfold branch_block. now rewrite He.
  - apply failed_block_labelled.
  - exists ("Python " +:+ v +:+ ": FAILED" +:+ Py.LF), "".
    unfold failed_block. now rewrite append_nil_r, !append_assoc.
  - apply join_contains. apply elem_of_app. right.
    apply list_elem_of_In, in_concat.
    exists [failed_block v e; delimiter; ""]. split; [|now left].
    apply list_elem_of_In, list_elem_of_fmap.
    exists (branch_block self source v). split.
    + unfold branch_block. now rewrite He.
    + now apply list_elem_of_fmap_2.
Qed.

(** A run over ["3.10,bad-version"] in which the second image does not
    resolve, the second branch finishing first. *)
Lemma branch_errors_become_failed_blocks_witness :
  exists report,
    unit_test_matrix [1; 0]%nat
      (Sample.with_unit_tests Sample.bad_version_engine)
      Sample.source "3.10,bad-version" = Return report /\
    forall v e,
      v ∈ version_list "3.10,bad-version" ->
      branch_execution (Sample.with_unit_tests Sample.bad_version_engine)
        Sample.source v = Raise e ->
      test_version (Sample.with_unit_tests Sample.bad_version_engine)
        Sample.source v = Return (v, failed_block v e) /\
      labelled v "FAILED" (failed_block v e) /\
      Text.contains (failed_block v e) (str_exc e) /\
      Text.contains report (failed_block v e).
Proof.
  apply (branch_errors_become_failed_blocks [1; 0]%nat
           (Sample.with_unit_tests Sample.bad_version_engine)
           Sample.source "3.10,bad-version").
  reflexivity.
Defined.

(** The same run, evaluated: one PASSED block, one FAILED block holding the
    engine's error text. *)
Example matrix_with_bad_version :
  unit_test_matrix [1; 0]%nat
    (Sample.with_unit_tests Sample.bad_version_engine)
    Sample.source "3.10,bad-version"
  = Return (report_of
      [ passed_block "3.10" "pytest tests/unit -v --tb=short: ok";
        failed_block "bad-version"
          (QueryError "failed to resolve image: not found") ]).
Proof. reflexivity. Qed.

(** C2 (the code departs from the claim).  Over ["3.10,3.11,3.12"], with
    all three unit-test executions succeeding, the report of the class's
    own instance holds three FAILED blocks: a branch asks [self] for
    [unit_tests], the class binds [unit_test], and the [AttributeError]
    is rendered as the failure. *)
Theorem matrix_fails_where_unit_tests_pass E order order' source :
  forallb (fun v => is_return (unit_test E source v))
    (version_list default_versions) = true ->
  let missing := AttributeError class_name "unit_tests" in
  unit_test_matrix order (DaggerTestingExample E order') source
    default_versions
  = Return (report_of [ failed_block "3.10" missing;
                        failed_block "3.11" missing;
                        failed_block "3.12" missing ]) /\
  forall v, v ∈ version_list default_versions ->
    ~ labelled v "PASSED"
        (branch_block (DaggerTestingExample E order') source v).
Proof.
  intros _ missing. split.
  - rewrite matrix_report.
    + unfold branch_block.
      change (version_list default_versions) with ["3.10"; "3.11"; "3.12"].
      rewrite !fmap_cons, !instance_branch_execution. reflexivity.
    + intros v e _. rewrite instance_branch_execution. now intros [= <-].
  - intros v _ [text Htext]. unfold branch_block in Htext.
    rewrite instance_branch_execution in Htext. unfold failed_block in Htext.
    apply (inj (String.append "Python ")) in Htext.
    apply (inj (String.append v)) in Htext. discriminate.
Qed.

Lemma matrix_fails_where_unit_tests_pass_witness :
  let missing := AttributeError class_name "unit_tests" in
  unit_test_matrix [2; 0; 1]%nat
    (DaggerTestingExample Sample.passing_engine []) Sample.source
    default_versions
  = Return (report_of [ failed_block "3.10" missing;
                        failed_block "3.11" missing;
                        failed_block "3.12" missing ]) /\
  forall v, v ∈ version_list default_versions ->
    ~ labelled v "PASSED"
        (branch_block (DaggerTestingExample Sample.passing_engine [])
           Sample.source v).
Proof.
  apply (matrix_fails_where_unit_tests_pass Sample.passing_engine
           [2; 0; 1]%nat [] Sample.source).
  reflexivity.
Defined.

(** The three unit-test executions of that run do succeed. *)
Example unit_tests_pass_on_passing_engine :
  unit_test Sample.passing_engine Sample.source
  <$> version_list default_versions
  = [ Return "pytest tests/unit -v --tb=short: ok";
      Return "pytest tests/unit -v --tb=short: ok";
      Return "pytest tests/unit -v --tb=short: ok" ].
Proof. reflexivity. Qed.

(** C3. In a matrix run whose branches raise errors only, the report is
    made of exactly one labelled block per entry of the version list, the
    i-th block carrying the label of the i-th version; the list has at
    least one entry; and the report is the same for every order in which
    the branches complete. *)
Theorem report_blocks_follow_version_list self source versions :
  errors_only self source versions = true ->
  exists blocks,
    length blocks = length (version_list versions) /\
    (1 <= length blocks)%nat /\
    (forall i v,
       version_list versions !! i = Some v ->
       exists b, blocks !! i = Some b /\
                 (labelled v "PASSED" b \/ labelled v "FAILED" b)) /\
    forall order,
      unit_test_matrix order self source versions = Return (report_of blocks).
Proof.
  intros Hok. pose proof (errors_only_spec _ _ _ Hok) as Hexc.
  exists (branch_block self source <$> version_list versions).
  split; [apply length_fmap|]. split; [|split].
  - rewrite length_fmap, version_list_length. lia.
  - intros i v Hv. exists (branch_block self source v). split.
    + now rewrite list_lookup_fmap, Hv.
    + apply branch_block_labelled.
  - intros order. now apply matrix_report.
Qed.

(** A slow first version and a fast second one: the second branch
    completes first, the first block is still the first version's. *)
Lemma report_blocks_follow_version_list_witness :
  exists blocks,
    length blocks = length (version_list "3.10,bad-version") /\
    (1 <= length blocks)%nat /\
    (forall i v,
       version_list "3.10,bad-version" !! i = Some v ->
       exists b, blocks !! i = Some b /\
                 (labelled v "PASSED" b \/ labelled v "FAILED" b)) /\
    forall order,
      unit_test_matrix order
        (Sample.with_unit_tests Sample.bad_version_engine)
        Sample.source "3.10,bad-version" = Return (report_of blocks).
Proof.
  apply (report_blocks_follow_version_list
           (Sample.with_unit_tests Sample.bad_version_engine)
           Sample.source "3.10,bad-version").
  reflexivity.
Defined.



(** ** The direct HTTP probe *)




(** Both probes answered 200 on the passing engine: the report is
    returned. *)
Example healthy_service_reports :
  test_api_service Sample.passing_engine Sample.source "3.12"
  = Return (Py.join Py.LF
              (result_lines "sh -c echo '{}' | jq .: ok"
                 "sh -c echo '{}' | jq .: ok")).
Proof. reflexivity. Qed.

Example dead_service_raises :
  test_api_service Sample.dead_service_engine Sample.source "3.12"
  = Raise (ExecError "exit: curl -s http://api:8000/" root_probe 7).
Proof. reflexivity. Qed.

(** ** The service's HTTP contract *)

Section RouterFacts.
Import Framework.

Lemma find_no_match {A} (f : A -> bool) (l : list A) :
  (forall x, x ∈ l -> f x = false) -> List.find f l = None.
Proof.
  induction l as [|x l IH]; intros Hf; simpl; [reflexivity|].
  rewrite (Hf x) by apply list_elem_of_here.
  apply IH. intros y Hy. apply Hf. now apply list_elem_of_further.
Qed.

Lemma existsb_no_match {A} (f : A -> bool) (l : list A) :
  (forall x, x ∈ l -> f x = false) -> existsb f l = false.
Proof.
  induction l as [|x l IH]; intros Hf; simpl; [reflexivity|].
  rewrite (Hf x) by apply list_elem_of_here. simpl.
  apply IH. intros y Hy. apply Hf. now apply list_elem_of_further.
Qed.

Lemma find_match {A} (f : A -> bool) (l : list A) x :
  x ∈ l -> f x = true -> exists y, List.find f l = Some y.
Proof.
  induction l as [|z l IH]; intros Hx Hf.
  - now apply elem_of_nil in Hx.
  - simpl. destruct (f z) eqn:Hz; [now exists z|].
    apply elem_of_cons in Hx as [->|Hx]; [congruence|now apply IH].
Qed.

Lemma path_matches_spec route_path request_path :
  path_matches route_path request_path = true <->
  request_path = route_path \/ request_path = route_path +:+ Py.LF.
Proof.
  unfold path_matches. rewrite orb_true_iff, !String.eqb_eq. tauto.
Qed.

(** A path is served when it is a registered path, or one followed by a
    line feed. *)
Lemma served_spec app request_path :
  served app request_path = true <->
  exists p, p ∈ registered_paths app /\
            (request_path = p \/ request_path = p +:+ Py.LF).
Proof.
  unfold served, registered_paths. rewrite existsb_exists. split.
  - intros (r & Hr & Hm). exists (route_path r). split.
    + apply list_elem_of_fmap_2. now apply list_elem_of_In.
    + now apply path_matches_spec.
  - intros (p & (r & -> & Hr)%list_elem_of_fmap & Hm).
    exists r. split; [now apply list_elem_of_In|].
    now apply path_matches_spec.
Qed.

Lemma served_route app r request_path :
  r ∈ routes app -> served app request_path = false ->
  path_matches (route_path r) request_path = false.
Proof.
  intros Hr Hs. destruct (path_matches (route_path r) request_path) eqn:Hm;
    [|reflexivity].
  assert (served app request_path = true) as Hserved; [|congruence].
  unfold served. apply existsb_exists. exists r.
  split; [now apply list_elem_of_In|assumption].
Qed.

Lemma matches_unserved app r req :
  r ∈ routes app -> served app (path req) = false -> matches r req = NONE.
Proof.
  intros Hr Hs. unfold matches. now rewrite (served_route app).
Qed.

Lemma respond_status e : status_code (respond e) = 200.
Proof. now destruct e. Qed.

Lemma handle_status r req :
  status_code (handle r req) = 200 \/ status_code (handle r req) = 405.
Proof.
  unfold handle. destruct (bool_decide (method req ∈ route_methods r)).
  - left. apply respond_status.
  - now right.
Qed.

(** A path that no route serves, also after the slash adjustment, is
    answered 404, whatever the method. *)
Lemma dispatch_not_found app req :
  served app (path req) = false ->
  served app (redirect_path (path req)) = false ->
  dispatch app req
  = {| status_code := 404; body := detail "Not Found"; location := None |}.
Proof.
  intros Hpath Hredirect. unfold dispatch.
  rewrite !find_no_match.
  - rewrite existsb_no_match; [now rewrite andb_false_r|].
    intros r Hr. unfold any_match.
    now rewrite (matches_unserved app).
  - intros r Hr. unfold is_match. now rewrite (matches_unserved app).
  - intros r Hr. unfold is_match. now rewrite (matches_unserved app).
Qed.

(** A served path is answered by a route: 200 or 405. *)
Lemma dispatch_served app req :
  served app (path req) = true ->
  status_code (dispatch app req) = 200 \/
  status_code (dispatch app req) = 405.
Proof.
  intros Hs. unfold dispatch.
  destruct (List.find (fun r => is_match FULL r req) (routes app))
    as [r|] eqn:Hfull; [apply handle_status|].
  destruct (List.find (fun r => is_match PARTIAL r req) (routes app))
    as [r|] eqn:Hpartial; [apply handle_status|].
  unfold served in Hs. apply existsb_exists in Hs as (r & Hr & Hm).
  pose proof (find_none _ _ Hfull r Hr) as Hf.
  pose proof (find_none _ _ Hpartial r Hr) as Hp.
  unfold is_match, matches in Hf, Hp. rewrite Hm in Hf, Hp.
  destruct (bool_decide (method req ∈ route_methods r)); discriminate.
Qed.

(** A path that is not served, while its slash adjustment is, is
    redirected. *)
Lemma dispatch_redirected app req :
  served app (path req) = false -> path req <> "/" ->
  served app (redirect_path (path req)) = true ->
  status_code (dispatch app req) = 307.
Proof.
  intros Hs Hroot Hredirect. unfold dispatch.
  rewrite !find_no_match.
  - apply String.eqb_neq in Hroot. rewrite Hroot. simpl.
    assert (existsb
              (fun r => any_match r
                          {| method := method req;
                             path := redirect_path (path req) |})
              (routes app) = true) as ->; [|reflexivity].
    unfold served in Hredirect.
    apply existsb_exists in Hredirect as (r & Hr & Hm).
    apply existsb_exists. exists r. split; [assumption|].
    unfold any_match, matches. simpl. rewrite Hm.
    now destruct (bool_decide (method req ∈ route_methods r)).
  - intros r Hr. unfold is_match. now rewrite (matches_unserved app).
  - intros r Hr. unfold is_match. now rewrite (matches_unserved app).
Qed.

End RouterFacts.

(** C6, as claimed, fails: the application is built with the framework's
    defaults, so a GET to [/docs], which is neither [/] nor [/health], is
    answered 200; and a GET to [/health/] is redirected. *)
Lemma docs_path_is_served :
  Framework.status_code (HelloWorld.serve "GET" "/docs") = 200 /\
  Framework.status_code (HelloWorld.serve "GET" "/openapi.json") = 200 /\
  Framework.status_code (HelloWorld.serve "GET" "/health/") = 307.
Proof. repeat split. Qed.

(** A path that ends in a line feed after a registered path is served as
    that path is. *)
Example line_feed_after_registered_path :
  HelloWorld.serve "GET" ("/health" +:+ Py.LF)
  = HelloWorld.serve "GET" "/health" /\
  Framework.status_code (HelloWorld.serve "GET" ("/" +:+ Py.LF)) = 200.
Proof. split; reflexivity. Qed.

(** C6, amended.  GET / is answered 200 with the body
    [{"message": "Hello, World!"}]; GET /health is answered 200 with the
    body [{"status": "healthy", "service": "hello-world"}].  Six paths
    are registered, these two and the framework's four documentation
    paths; a request path is served when, percent-decoded, it is one of
    the six or one of the six followed by a line feed.  A request is
    answered 404 exactly when neither its path nor its slash-adjusted
    path is served, whatever its method.  A request to / with a method
    other than GET is answered 405. *)
Theorem hello_world_contract :
  HelloWorld.serve "GET" "/"
  = {| Framework.status_code := 200;
       Framework.body := Framework.JsonBody [("message", "Hello, World!")];
       Framework.location := None |} /\
  HelloWorld.serve "GET" "/health"
  = {| Framework.status_code := 200;
       Framework.body :=
         Framework.JsonBody [("status", "healthy"); ("service", "hello-world")];
       Framework.location := None |} /\
  Framework.registered_paths HelloWorld.app
  = [ "/openapi.json"; "/docs"; "/docs/oauth2-redirect"; "/redoc";
      "/"; "/health" ] /\
  (forall path,
     Framework.served HelloWorld.app path = true <->
     exists p, p ∈ Framework.registered_paths HelloWorld.app /\
               (path = p \/ path = p +:+ Py.LF)) /\
  (forall method path,
     Framework.status_code (HelloWorld.serve method path) = 404 <->
     Framework.served HelloWorld.app path = false /\
     Framework.served HelloWorld.app (Framework.redirect_path path) = false) /\
  (forall method,
     method <> "GET" ->
     Framework.status_code (HelloWorld.serve method "/") = 405).
Proof.
  split; [reflexivity|]. split; [reflexivity|]. split; [reflexivity|].
  split; [intros path; apply served_spec|]. split.
  - intros method path. unfold HelloWorld.serve. split.
    + intros H404.
      destruct (Framework.served HelloWorld.app path) eqn:Hs.
      { destruct (dispatch_served HelloWorld.app
                    {| Framework.method := method; Framework.path := path |}
                    Hs) as [H|H]; rewrite H in H404; discriminate. }
      split; [reflexivity|].
      destruct (Framework.served HelloWorld.app (Framework.redirect_path path))
        eqn:Hr; [|reflexivity].
      rewrite (dispatch_redirected HelloWorld.app
                 {| Framework.method := method; Framework.path := path |})
        in H404; [discriminate|assumption| |assumption].
      simpl. intros ->. discriminate Hs.
    + intros [Hs Hr]. now rewrite dispatch_not_found.
  - intros method Hmethod.
    assert (bool_decide (method ∈ ["GET"]) = false) as Hget.
    { apply bool_decide_eq_false_2.
      intros Hin%list_elem_of_singleton. contradiction. }
    unfold HelloWorld.serve, Framework.dispatch, Framework.is_match,
      Framework.matches, Framework.handle.
    simpl. rewrite !Hget. simpl. rewrite Hget. reflexivity.
Qed.

(** GET /nonexistent is answered 404 and POST / is answered 405, as the
    unit tests of the service expect. *)
Lemma hello_world_contract_witness :
  Framework.status_code (HelloWorld.serve "GET" "/nonexistent") = 404 /\
  Framework.status_code (HelloWorld.serve "POST" "/") = 405.
Proof.
  destruct hello_world_contract
    as (_ & _ & _ & _ & Hnot_found & Hnot_allowed).
  split.
  - apply Hnot_found. split; reflexivity.
  - apply Hnot_allowed. discriminate.
Defined.

(** ** Probe commands and their options *)

(** C7, as claimed, fails: neither probe command carries a timeout
    option. *)
Lemma probes_carry_no_timeout :
  has_timeout_option root_probe = false /\
  has_timeout_option health_probe = false /\
  has_timeout_option ["curl"; "-s"; "-m"; "1"; "http://api:8000/"] = true.
Proof. repeat split. Qed.

(** C7, amended.  The probe commands [test_api_service] issues are the
    two vectors [curl -s <url>], for the root and the health address; they
    carry the silent option and no timeout option.  The one-second timeout
    is that of the request sent by the delegated integration test. *)
Theorem probes_are_silent_curl_without_timeout
    source python_version root_response health_response :
  concat (curl_commands
            <$> awaited_containers source python_version
                  root_response health_response)
  = [ ["curl"; "-s"; root_url]; ["curl"; "-s"; health_url] ] /\
  (forall cmd,
     cmd ∈ concat (curl_commands
                     <$> awaited_containers source python_version
                           root_response health_response) ->
     has_timeout_option cmd = false) /\
  (forall E,
     test_api_service E source python_version
     = (root_response <~ stdout E (test_client source python_version
                                     ▸ with_exec ["curl"; "-s"; root_url]);;
        health_response <~ stdout E (test_client source python_version
                                       ▸ with_exec ["curl"; "-s"; health_url]);;
        root_pretty <~ stdout E (test_client source python_version
                                   ▸ with_exec (jq_command root_response));;
        health_pretty <~ stdout E (test_client source python_version
                                     ▸ with_exec (jq_command health_response));;
        Return (Py.join Py.LF (result_lines root_pretty health_pretty)))) /\
  forall environ,
    E2E.timeout (E2E.test_hello_world_request environ) = Some 1.
Proof.
  assert (concat (curl_commands
                    <$> awaited_containers source python_version
                          root_response health_response)
          = [ ["curl"; "-s"; root_url]; ["curl"; "-s"; health_url] ]) as Hcmds
    by reflexivity.
  split; [exact Hcmds|]. split; [|split; reflexivity].
  intros cmd Hcmd. rewrite Hcmds in Hcmd.
  apply elem_of_cons in Hcmd as [->|Hcmd]; [reflexivity|].
  apply list_elem_of_singleton in Hcmd as ->. reflexivity.
Qed.

Lemma probes_are_silent_curl_without_timeout_witness :
  has_timeout_option ["curl"; "-s"; root_url] = false.
Proof.
  apply (proj1 (proj2 (probes_are_silent_curl_without_timeout
                         Sample.source "3.12" "{}" "{}"))).
  apply (bool_decide_unpack _). exact I.
Defined.

(** ** Environments and services *)

(** Environments built from different inputs differ. *)
Lemma test_container_inj source1 version1 source2 version2 :
  test_container source1 version1 = test_container source2 version2 ->
  source1 = source2 /\ version1 = version2.
Proof.
  unfold test_container, chain, container. simpl.
  intros [= Himage ->]. split; [reflexivity|].
  now apply (append_inj_l _ _ "-bookworm-slim").
Qed.

(** C9. The service is built on the environment of [test_container] for
    the same source and version; the one command run in it installs the
    package without the test extra; exactly one port is exposed, 8000; the
    service command is the application's entry command. *)
Theorem api_service_shape source python_version :
  let svc := api_service source python_version in
  (exists layers, service_base svc
                  = test_container source python_version ++ layers /\
                  exec_commands (test_container source python_version) = [] /\
                  exposed_ports (test_container source python_version) = []) /\
  exec_commands (service_base svc) = [["uv"; "pip"; "install"; "-e"; "."]] /\
  (".[test]" ∉ concat (exec_commands (service_base svc))) /\
  exposed_ports (service_base svc) = [8000] /\
  service_args svc = ["python"; "-m"; "hello_world"].
Proof.
  intros svc. split; [|split; [reflexivity|split; [|split; reflexivity]]].
  - exists [with_exec ["uv"; "pip"; "install"; "-e"; "."];
            with_exposed_port 8000].
    split; [|split]; reflexivity.
  - apply (bool_decide_unpack _). exact I.
Qed.

(** C10. [unit_test] is [run_test] at the path [tests/unit]: the same
    chain is evaluated, hence the same commands run in the same
    environment, and the outcome is the same. *)
Theorem unit_test_is_run_test_on_unit_path E source python_version :
  unit_test E source python_version
  = run_test E source "tests/unit" python_version /\
  unit_test E source python_version
  = run_commands E (test_container source python_version)
      [ ["uv"; "pip"; "install"; "-e"; ".[test]"];
        ["pytest"; "tests/unit"; "-v"; "--tb=short"] ] /\
  forall path,
    run_test E source path python_version
    = run_commands E (test_container source python_version)
        [ ["uv"; "pip"; "install"; "-e"; ".[test]"];
          ["pytest"; path; "-v"; "--tb=short"] ].
Proof. split; [|split]; reflexivity. Qed.

(** ** More on the version list *)

Section VersionListFacts.

Local Open Scope nat_scope.
Import Text.

Lemma count_append sep (a b : string) :
  count sep (a +:+ b) = count sep a + count sep b.
Proof.
  induction a as [|x a IH]; [reflexivity|].
  change (count sep (String x (a +:+ b))
          = count sep (String x a) + count sep b).
  simpl. rewrite IH. lia.
Qed.

Lemma split_one_field sep (a : string) :
  count sep a = 0 -> Py.split sep a = [a].
Proof.
  induction a as [|x a IH]; simpl; [reflexivity|].
  destruct (Ascii.eqb x sep); [discriminate|].
  intros H. now rewrite IH.
Qed.

Lemma split_first_field sep (a rest : string) :
  count sep a = 0 ->
  Py.split sep (a +:+ String sep rest) = a :: Py.split sep rest.
Proof.
  induction a as [|x a IH]; intros H.
  - change (Py.split sep (String sep rest) = "" :: Py.split sep rest).
    simpl. now rewrite Ascii.eqb_refl.
  - change (Py.split sep (String x (a +:+ String sep rest))
            = String x a :: Py.split sep rest).
    simpl in *. destruct (Ascii.eqb x sep); [discriminate|].
    now rewrite IH.
Qed.

(** Splitting undoes joining, for fields without the separator. *)
Lemma split_join sep (fields : list string) :
  fields <> [] ->
  Forall (fun f => count sep f = 0) fields ->
  Py.split sep (Py.join (String sep "") fields) = fields.
Proof.
  induction fields as [|f [|g fields] IH]; intros Hne Hfree.
  - contradiction.
  - apply split_one_field. now apply Forall_inv in Hfree.
  - rewrite PyFacts.join_cons.
    change (String sep "" +:+ Py.join (String sep "") (g :: fields))
      with (String sep (Py.join (String sep "") (g :: fields))).
    rewrite split_first_field by (now apply Forall_inv in Hfree).
    rewrite IH; [reflexivity|discriminate|now apply Forall_inv_tail in Hfree].
Qed.

Lemma split_fields_free sep (s : string) :
  Forall (fun f => count sep f = 0) (Py.split sep s).
Proof.
  induction s as [|x s IH]; simpl.
  - now constructor.
  - destruct (Ascii.eqb x sep) eqn:Hx; [now constructor|].
    destruct (Py.split sep s) as [|w ws].
    + constructor; [|constructor]. simpl. now rewrite Hx.
    + inversion IH as [|? ? Hw Hws]; subst.
      constructor; [|assumption]. simpl. now rewrite Hx, Hw.
Qed.

Lemma strip_count sep (s : string) : count sep (Py.strip s) <= count sep s.
Proof.
  destruct (PyFacts.strip_spec s) as (l & r & Hs & _ & _).
  rewrite Hs at 2. rewrite !count_append. lia.
Qed.

Lemma lstrip_fixed (s : string) :
  (forall c, first_char s = Some c -> Py.isspace c = false) ->
  Py.lstrip s = s.
Proof.
  destruct s as [|c s]; [reflexivity|]. intros H. simpl.
  now rewrite (H c eq_refl).
Qed.

Lemma rstrip_fixed (s : string) :
  (forall c, last_char s = Some c -> Py.isspace c = false) ->
  Py.rstrip s = s.
Proof.
  induction s as [|c s IH]; [reflexivity|]. intros H. simpl.
  destruct s as [|d s].
  - simpl. now rewrite (H c eq_refl).
  - rewrite IH by exact H. reflexivity.
Qed.

Lemma strip_of_trimmed (s : string) : trimmed s -> Py.strip s = s.
Proof.
  intros [Hfirst Hlast]. unfold Py.strip.
  rewrite lstrip_fixed by assumption. now apply rstrip_fixed.
Qed.

Lemma strip_all_trimmed (fields : list string) :
  Forall trimmed fields -> Py.strip <$> fields = fields.
Proof.
  induction 1 as [|f fs Hf _ IH]; [reflexivity|].
  now rewrite fmap_cons, (strip_of_trimmed f Hf), IH.
Qed.

End VersionListFacts.

(** X1. A non-empty list of fields without commas, written out separated
    by commas, is read back field by field, each trimmed; fields that are
    already trimmed are read back unchanged. *)
Theorem version_list_of_joined (fields : list string) :
  fields <> [] ->
  forallb comma_free fields = true ->
  version_list (Py.join "," fields) = Py.strip <$> fields /\
  (Forall Text.trimmed fields -> version_list (Py.join "," fields) = fields).
Proof.
  intros Hne Hfree.
  assert (version_list (Py.join "," fields) = Py.strip <$> fields) as Hread.
  { unfold version_list.
    change (Py.join "," fields) with (Py.join (String "," "") fields).
    rewrite split_join; [reflexivity|assumption|].
    apply Forall_forall. intros f Hf.
    rewrite forallb_forall in Hfree. apply list_elem_of_In in Hf.
    specialize (Hfree f Hf). now apply Nat.eqb_eq in Hfree. }
  split; [exact Hread|]. intros Htrim. rewrite Hread.
  now apply strip_all_trimmed.
Qed.

Lemma version_list_of_joined_witness :
  version_list (Py.join "," ["3.10"; " 3.11 "; ""; "3.12"])
  = Py.strip <$> ["3.10"; " 3.11 "; ""; "3.12"] /\
  (Forall Text.trimmed ["3.10"; " 3.11 "; ""; "3.12"] ->
   version_list (Py.join "," ["3.10"; " 3.11 "; ""; "3.12"])
   = ["3.10"; " 3.11 "; ""; "3.12"]).
Proof.
  apply (version_list_of_joined ["3.10"; " 3.11 "; ""; "3.12"]).
  - discriminate.
  - reflexivity.
Defined.

(** X2. No entry of the version list holds a comma, and none starts or
    ends with whitespace, whatever the parameter is. *)
Theorem version_list_entries_clean versions v :
  v ∈ version_list versions ->
  Text.count "," v = 0%nat /\ Text.trimmed v /\ Py.strip v = v.
Proof.
  unfold version_list. intros (field & -> & Hfield)%list_elem_of_fmap.
  split; [|split].
  - pose proof (split_fields_free "," versions) as Hfree.
    rewrite Forall_forall in Hfree. specialize (Hfree field Hfield).
    pose proof (strip_count "," field). lia.
  - apply PyFacts.strip_trimmed.
  - apply strip_of_trimmed, PyFacts.strip_trimmed.
Qed.

Lemma version_list_entries_clean_witness :
  Text.count "," "3.11" = 0%nat /\ Text.trimmed "3.11" /\
  Py.strip "3.11" = "3.11".
Proof.
  apply (version_list_entries_clean "3.10 ,  3.11,3.12" "3.11").
  apply (bool_decide_unpack _). exact I.
Defined.

(** ** More on the version matrix *)

Lemma gather_loop_raise_origin {A} order (tasks : list (Exc A)) slots e :
  gather_loop order tasks slots = Raise e ->
  exists i, tasks !! i = Some (Raise e).
Proof.
  revert slots. induction order as [|j order IH]; intros slots; simpl.
  - discriminate.
  - destruct (tasks !! j) as [[a|e']|] eqn:Hj; [apply IH| |apply IH].
    intros [= <-]. now exists j.
Qed.

(** What [gather] raises was raised by one of its branches. *)
Lemma gather_raise_origin {A} order (tasks : list (Exc A)) e :
  gather order tasks = Raise e -> exists i, tasks !! i = Some (Raise e).
Proof.
  unfold gather.
  destruct (gather_loop (order ++ seq 0 (length tasks)) tasks
              (replicate (length tasks) None)) as [slots|e'] eqn:Hloop;
    simpl; [discriminate|].
  intros [= <-]. eapply gather_loop_raise_origin, Hloop.
Qed.

(** What a branch lets through is not an error. *)
Lemma test_version_raise self source version e :
  test_version self source version = Raise e -> e = CancelledError.
Proof.
  unfold test_version.
  destruct (branch_execution self source version) as [r|e']; simpl;
    [discriminate|].
  destruct e'; simpl; try discriminate. now intros [= <-].
Qed.

Lemma labels_exclusive version block :
  labelled version "PASSED" block -> labelled version "FAILED" block -> False.
Proof.
  intros [t1 ->] [t2 H].
  apply (inj (String.append "Python ")) in H.
  apply (inj (String.append version)) in H. discriminate.
Qed.

(** X3. On the class's own instance a matrix run never reaches the
    engine: for every versions parameter, every engine and every order
    of completion, the report holds one FAILED block per entry, with the
    text of the [AttributeError] for the name [unit_tests]. *)
Theorem class_matrix_reports_attribute_error
    E E' order order' order'' source versions :
  unit_test_matrix order (DaggerTestingExample E order') source versions
  = Return (report_of
              ((fun v => failed_block v
                           (AttributeError class_name "unit_tests"))
                 <$> version_list versions)) /\
  unit_test_matrix order (DaggerTestingExample E order') source versions
  = unit_test_matrix order (DaggerTestingExample E' order'') source versions.
Proof.
  assert (forall F o,
            unit_test_matrix order (DaggerTestingExample F o) source versions
            = Return (report_of
                        ((fun v => failed_block v
                                     (AttributeError class_name "unit_tests"))
                           <$> version_list versions))) as Hreport.
  { intros F o.
    rewrite matrix_report by apply errors_only_spec, instance_errors_only.
    assert (branch_block (DaggerTestingExample F o) source
              <$> version_list versions
            = (fun v => failed_block v
                          (AttributeError class_name "unit_tests"))
                <$> version_list versions) as ->; [|reflexivity].
    apply list_fmap_ext. intros i v _.
    unfold branch_block. now rewrite instance_branch_execution. }
  split; [apply Hreport|]. now rewrite !Hreport.
Qed.

Lemma branch_block_verdict self source version :
  (labelled version "PASSED" (branch_block self source version) <->
   returns (branch_execution self source version)) /\
  (labelled version "FAILED" (branch_block self source version) <->
   raises (branch_execution self source version)) /\
  ~ (labelled version "PASSED" (branch_block self source version) /\
     labelled version "FAILED" (branch_block self source version)).
Proof.
  unfold branch_block.
  destruct (branch_execution self source version) as [result|e].
  - split; [|split].
    + split; [intros _; now exists result|intros _].
      apply passed_block_labelled.
    + split; [|intros [e' He']; discriminate He'].
      intros Hfailed. destruct (labels_exclusive version
                                  (passed_block version result));
        [apply passed_block_labelled|assumption].
    + intros [Hp Hf]. exact (labels_exclusive _ _ Hp Hf).
  - split; [|split].
    + split; [|intros [r Hr]; discriminate Hr].
      intros Hpassed. destruct (labels_exclusive version
                                  (failed_block version e));
        [assumption|apply failed_block_labelled].
    + split; [intros _; now exists e|intros _].
      apply failed_block_labelled.
    + intros [Hp Hf]. exact (labels_exclusive _ _ Hp Hf).
Qed.

(** The results [gather] returns are those of its branches, one by one. *)
Lemma gather_return_tasks {A} order (tasks : list (Exc A)) xs :
  gather order tasks = Return xs -> tasks = Return <$> xs.
Proof.
  intros Hgather.
  assert (exists ys, tasks = Return <$> ys) as [ys ->].
  { assert (forall i t, tasks !! i = Some t -> exists a, t = Return a) as Hall.
    { intros i [a|e] Hi; [now exists a|].
      destruct (gather_raises i e order tasks Hi) as [e' He'].
      rewrite He' in Hgather. discriminate. }
    clear Hgather. induction tasks as [|t tasks IH]; [now exists []|].
    destruct (Hall 0%nat t eq_refl) as [a ->].
    destruct IH as [ys ->].
    { intros i t' Hi. apply (Hall (S i)). exact Hi. }
    now exists (a :: ys). }
  rewrite gather_returns in Hgather. now injection Hgather as ->.
Qed.

(** What a branch returns is its own version with its block. *)
Lemma test_version_result self source version result :
  test_version self source version = Return result ->
  result = (version, branch_block self source version).
Proof.
  unfold test_version, branch_block.
  destruct (branch_execution self source version) as [r|e]; simpl.
  - now intros [= <-].
  - destruct (is_Exception e); [now intros [= <-]|discriminate].
Qed.

(** X4. In a report that [unit_test_matrix] returns, the verdict of a
    block tells how its branch ended: the result at the position of a
    version is what [test_version] returned for it, it carries that
    version, and its block is labelled PASSED exactly when the awaited
    test execution returned, FAILED exactly when it raised, never both. *)
Theorem verdict_reflects_branch order self source versions report :
  unit_test_matrix order self source versions = Return report ->
  exists results,
    report = Py.join Py.LF (output_lines results) /\
    length results = length (version_list versions) /\
    forall i v,
      version_list versions !! i = Some v ->
      exists block,
        results !! i = Some (v, block) /\
        test_version self source v = Return (v, block) /\
        (labelled v "PASSED" block <->
         returns (branch_execution self source v)) /\
        (labelled v "FAILED" block <->
         raises (branch_execution self source v)) /\
        ~ (labelled v "PASSED" block /\ labelled v "FAILED" block).
Proof.
  unfold unit_test_matrix. intros Hreport.
  destruct (gather order (test_version self source <$> version_list versions))
    as [results|e] eqn:Hgather; simpl in Hreport; [|discriminate].
  injection Hreport as <-. exists results.
  apply gather_return_tasks in Hgather.
  split; [reflexivity|]. split.
  - apply (f_equal length) in Hgather. now rewrite !length_fmap in Hgather.
  - intros i v Hv.
    apply (f_equal (fun l => l !! i)) in Hgather.
    rewrite !list_lookup_fmap, Hv in Hgather. simpl in Hgather.
    destruct (results !! i) as [result|]; simpl in Hgather; [|discriminate].
    injection Hgather as Hresult.
    pose proof (test_version_result _ _ _ _ Hresult) as ->.
    exists (branch_block self source v).
    split; [reflexivity|]. split; [exact Hresult|].
    apply branch_block_verdict.
Qed.

Lemma verdict_reflects_branch_witness :
  exists results,
    report_of
      [ passed_block "3.10" "pytest tests/unit -v --tb=short: ok";
        failed_block "bad-version"
          (QueryError "failed to resolve image: not found") ]
    = Py.join Py.LF (output_lines results) /\
    length results = length (version_list "3.10,bad-version") /\
    forall i v,
      version_list "3.10,bad-version" !! i = Some v ->
      exists block,
        results !! i = Some (v, block) /\
        test_version (Sample.with_unit_tests Sample.bad_version_engine)
          Sample.source v = Return (v, block) /\
        (labelled v "PASSED" block <->
         returns (branch_execution
                    (Sample.with_unit_tests Sample.bad_version_engine)
                    Sample.source v)) /\
        (labelled v "FAILED" block <->
         raises (branch_execution
                   (Sample.with_unit_tests Sample.bad_version_engine)
                   Sample.source v)) /\
        ~ (labelled v "PASSED" block /\ labelled v "FAILED" block).
Proof.
  apply (verdict_reflects_branch [1; 0]%nat
           (Sample.with_unit_tests Sample.bad_version_engine)
           Sample.source "3.10,bad-version").
  reflexivity.
Defined.

(** X5. A branch that is cancelled while it awaits the test execution is
    not turned into a FAILED block: the handler catches [Exception] only,
    and the matrix run ends with the cancellation, returning no report. *)
Theorem cancelled_branch_cancels_matrix order self source versions v :
  v ∈ version_list versions ->
  branch_execution self source v = Raise CancelledError ->
  test_version self source v = Raise CancelledError /\
  unit_test_matrix order self source versions = Raise CancelledError.
Proof.
  intros Hv Hcancel. split; [now apply test_version_cancelled|].
  destruct (matrix_cancelled order self source versions v Hv Hcancel)
    as [e He].
  rewrite He. f_equal. unfold unit_test_matrix in He.
  destruct (gather order (test_version self source <$> version_list versions))
    as [results|e'] eqn:Hgather; simpl in He; [discriminate|].
  injection He as <-.
  apply gather_raise_origin in Hgather as [i Hi].
  rewrite list_lookup_fmap in Hi.
  destruct (version_list versions !! i) as [w|]; simpl in Hi; [|discriminate].
  injection Hi as Hi. eapply test_version_raise, Hi.
Qed.

Lemma cancelled_branch_cancels_matrix_witness :
  test_version cancelled_instance Sample.source "3.11" = Raise CancelledError /\
  unit_test_matrix [2; 1; 0]%nat cancelled_instance Sample.source
    default_versions = Raise CancelledError.
Proof.
  apply (cancelled_branch_cancels_matrix [2; 1; 0]%nat cancelled_instance
           Sample.source default_versions "3.11").
  - apply (bool_decide_unpack _). exact I.
  - reflexivity.
Defined.

(** ** The test stages, step by step *)

Lemma exec_step_returns E env args out :
  exec_step E env args = Return out <->
  exit_code (exec_command E env args) = 0 /\
  out = stdout_text (exec_command E env args).
Proof.
  unfold exec_step.
  destruct (Z.eqb_spec (exit_code (exec_command E env args)) 0) as [H0|Hn].
  - split; [intros [= <-]; now split|intros [_ ->]; reflexivity].
  - split; [discriminate|intros [H0 _]; contradiction].
Qed.

Lemma exec_step_raises E env args :
  exit_code (exec_command E env args) <> 0 ->
  exec_step E env args
  = Raise (ExecError (exec_error_text E args (exec_command E env args)) args
             (exit_code (exec_command E env args))).
Proof.
  intros Hn. unfold exec_step.
  now destruct (Z.eqb_spec (exit_code (exec_command E env args)) 0).
Qed.

Lemma stdout_test_container E source python_version :
  stdout E (test_container source python_version)
  = match image_error E (image_of python_version) with
    | Some text => Raise (QueryError text)
    | None => Return ""
    end.
Proof.
  unfold stdout. simpl. fold (image_of python_version).
  now destruct (image_error E (image_of python_version)).
Qed.

Lemma run_test_steps E source path python_version :
  let env := test_container source python_version in
  run_test E source path python_version
  = match image_error E (image_of python_version) with
    | Some text => Raise (QueryError text)
    | None =>
        _ <~ exec_step E env install_for_tests;;
        exec_step E (env ▸ with_exec install_for_tests) (pytest_at path)
    end.
Proof.
  intros env. unfold run_test. fold env install_for_tests (pytest_at path).
  rewrite !stdout_with_exec. unfold env at 1.
  rewrite stdout_test_container.
  now destruct (image_error E (image_of python_version)).
Qed.

Lemma integration_test_steps E source python_version :
  let env := test_container source python_version
               ▸ with_service_binding "api"
                   (api_service source python_version)
               ▸ with_env_variable "API_BASE_URL" "http://api:8000" in
  integration_test E source python_version
  = match image_error E (image_of python_version) with
    | Some text => Raise (QueryError text)
    | None =>
        match service_error E (api_service source python_version) with
        | Some text => Raise (QueryError text)
        | None =>
            _ <~ exec_step E env install_for_tests;;
            exec_step E (env ▸ with_exec install_for_tests)
              (pytest_at "tests/e2e")
        end
    end.
Proof.
  intros env. unfold integration_test.
  fold env install_for_tests (pytest_at "tests/e2e").
  rewrite !stdout_with_exec.
  assert (stdout E env
          = match image_error E (image_of python_version) with
            | Some text => Raise (QueryError text)
            | None =>
                match service_error E (api_service source python_version) with
                | Some text => Raise (QueryError text)
                | None => Return ""
                end
            end) as ->.
  { unfold stdout. simpl. fold (image_of python_version).
    destruct (image_error E (image_of python_version)); [reflexivity|].
    now destruct (service_error E (api_service source python_version)). }
  destruct (image_error E (image_of python_version)); [reflexivity|].
  now destruct (service_error E (api_service source python_version)).
Qed.

(** X6. [run_test] returns exactly the standard output of the test
    runner, and only when the image resolves and both the install and the
    test runner exit with status 0; when the install fails the call raises
    the install's error, whatever the test runner would have done. *)
Theorem run_test_outcome E source path python_version :
  let env := test_container source python_version in
  let install := exec_command E env install_for_tests in
  let pytest := exec_command E (env ▸ with_exec install_for_tests)
                  (pytest_at path) in
  (forall out,
     run_test E source path python_version = Return out <->
     image_error E (image_of python_version) = None /\
     exit_code install = 0 /\ exit_code pytest = 0 /\
     out = stdout_text pytest) /\
  (image_error E (image_of python_version) = None ->
   exit_code install <> 0 ->
   run_test E source path python_version
   = Raise (ExecError (exec_error_text E install_for_tests install)
              install_for_tests (exit_code install))).
Proof.
  intros env install pytest. rewrite run_test_steps. fold env. split.
  - intros out.
    destruct (image_error E (image_of python_version)) as [text|].
    { split; [discriminate|intros [[=] _]]. }
    destruct (exec_step E env install_for_tests) as [o|e] eqn:Hinstall; simpl.
    + apply exec_step_returns in Hinstall as [H0 _].
      rewrite exec_step_returns. fold install pytest. tauto.
    + split; [discriminate|]. intros (_ & H0 & _).
      unfold exec_step in Hinstall. fold install in Hinstall.
      rewrite H0 in Hinstall. discriminate.
  - intros -> Hn. now rewrite exec_step_raises.
Qed.

Lemma run_test_outcome_witness :
  run_test Sample.passing_engine Sample.source "tests/unit" "3.12"
  = Return "pytest tests/unit -v --tb=short: ok".
Proof.
  apply (proj1 (run_test_outcome Sample.passing_engine Sample.source
                  "tests/unit" "3.12")).
  repeat split.
Defined.

(** X7. [integration_test] binds the service before anything is
    installed: it returns exactly the standard output of the test runner
    on [tests/e2e], and only when the image resolves, the service comes
    up, and the install and the test runner exit with status 0; a service
    that does not come up makes the call raise before any command runs. *)
Theorem integration_test_outcome E source python_version :
  let env := test_container source python_version
               ▸ with_service_binding "api"
                   (api_service source python_version)
               ▸ with_env_variable "API_BASE_URL" "http://api:8000" in
  let install := exec_command E env install_for_tests in
  let pytest := exec_command E (env ▸ with_exec install_for_tests)
                  (pytest_at "tests/e2e") in
  (forall out,
     integration_test E source python_version = Return out <->
     image_error E (image_of python_version) = None /\
     service_error E (api_service source python_version) = None /\
     exit_code install = 0 /\ exit_code pytest = 0 /\
     out = stdout_text pytest) /\
  (forall text,
     image_error E (image_of python_version) = None ->
     service_error E (api_service source python_version) = Some text ->
     integration_test E source python_version = Raise (QueryError text)).
Proof.
  intros env install pytest. rewrite integration_test_steps. fold env. split.
  - intros out.
    destruct (image_error E (image_of python_version)) as [text|].
    { split; [discriminate|intros [[=] _]]. }
    destruct (service_error E (api_service source python_version))
      as [text|].
    { split; [discriminate|intros (_ & [=] & _)]. }
    destruct (exec_step E env install_for_tests) as [o|e] eqn:Hinstall; simpl.
    + apply exec_step_returns in Hinstall as [H0 _].
      rewrite exec_step_returns. fold install pytest. tauto.
    + split; [discriminate|]. intros (_ & _ & H0 & _).
      unfold exec_step in Hinstall. fold install in Hinstall.
      rewrite H0 in Hinstall. discriminate.
  - intros text -> ->. reflexivity.
Qed.

Lemma integration_test_outcome_witness :
  integration_test Sample.passing_engine Sample.source "3.12"
  = Return "pytest tests/e2e -v --tb=short: ok".
Proof.
  apply (proj1 (integration_test_outcome Sample.passing_engine Sample.source
                  "3.12")).
  repeat split.
Defined.

(** ** Addresses *)




(** X10. Environments are told apart by their inputs: two calls of
    [test_container] give the same environment exactly when the source
    trees are the same and the versions are the same. *)
Theorem test_container_separates_inputs source1 version1 source2 version2 :
  test_container source1 version1 = test_container source2 version2 <->
  source1 = source2 /\ version1 = version2.
Proof.
  split; [apply test_container_inj|]. now intros [-> ->].
Qed.

(** ** The direct probe, step by step *)

Lemma test_client_ready E source python_version :
  let apk := exec_command E (container ▸ from_ "alpine:latest")
               ["apk"; "add"; "--no-cache"; "curl"; "jq"] in
  returns (stdout E (test_client source python_version)) <->
  image_error E "alpine:latest" = None /\
  exit_code apk = 0 /\
  service_error E (api_service source python_version) = None.
Proof.
  intros apk.
  assert (stdout E (test_client source python_version)
          = match image_error E "alpine:latest" with
            | Some text => Raise (QueryError text)
            | None =>
                if exit_code apk =? 0
                then match service_error E
                             (api_service source python_version) with
                     | Some text => Raise (QueryError text)
                     | None => Return (stdout_text apk)
                     end
                else Raise (ExecError
                              (exec_error_text E
                                 ["apk"; "add"; "--no-cache"; "curl"; "jq"] apk)
                              ["apk"; "add"; "--no-cache"; "curl"; "jq"]
                              (exit_code apk))
            end) as -> by reflexivity.
  destruct (image_error E "alpine:latest") as [text|].
  { split; [intros [out H]; discriminate H|intros [[=] _]]. }
  destruct (Z.eqb_spec (exit_code apk) 0) as [H0|Hn].
  2:{ split; [intros [out H]; discriminate H|intros (_ & H0 & _)].
      contradiction. }
  destruct (service_error E (api_service source python_version)) as [text|].
  { split; [intros [out H]; discriminate H|intros (_ & _ & [=])]. }
  split; [now intros _|intros _; eexists; reflexivity].
Qed.

(** X9. [test_api_service] returns a report exactly when the probe
    environment is set up (image resolved, tools installed, service up),
    both probes are answered, with whatever status, and both formatting
    commands exit with status 0.  The report then holds the two formatted
    outputs, and each formatting command was built from the body of the
    answer as it came. *)
Theorem test_api_service_outcome E source python_version report :
  let env := test_client source python_version in
  test_api_service E source python_version = Return report <->
  exists root_body health_body root_pretty health_pretty,
    returns (stdout E env) /\
    (exists status, http_get E env root_url = Response status root_body) /\
    (exists status,
       http_get E env health_url = Response status health_body) /\
    exec_step E env (jq_command root_body) = Return root_pretty /\
    exec_step E env (jq_command health_body) = Return health_pretty /\
    report = Py.join Py.LF (result_lines root_pretty health_pretty).
Proof.
  intros env. rewrite test_api_service_steps. fold env. unfold probe. split.
  - destruct (stdout E env) as [out|e]; simpl; [|discriminate].
    destruct (http_get E env root_url) as [s1 b1|]; simpl; [|discriminate].
    destruct (http_get E env health_url) as [s2 b2|]; simpl; [|discriminate].
    destruct (exec_step E env (jq_command b1)) as [rp|] eqn:Hrp; simpl;
      [|discriminate].
    destruct (exec_step E env (jq_command b2)) as [hp|] eqn:Hhp; simpl;
      [|discriminate].
    intros [= <-]. exists b1, b2, rp, hp.
    split; [now exists out|]. split; [now exists s1|].
    split; [now exists s2|]. split; [exact Hrp|]. split; [exact Hhp|].
    reflexivity.
  - intros (b1 & b2 & rp & hp & [out ->] & [s1 ->] & [s2 ->] & Hrp & Hhp & ->).
    simpl. now rewrite Hrp, Hhp.
Qed.

Lemma test_api_service_outcome_witness :
  test_api_service Sample.not_found_engine Sample.source "3.12"
  = Return (Py.join Py.LF
              (result_lines Sample.not_found_pretty Sample.not_found_pretty)).
Proof.
  apply (proj2 (test_api_service_outcome Sample.not_found_engine
                  Sample.source "3.12" _)).
  exists Sample.not_found_body, Sample.not_found_body,
    Sample.not_found_pretty, Sample.not_found_pretty.
  split; [eexists; reflexivity|]. split; [now exists 404|].
  split; [now exists 404|]. now repeat split.
Defined.

(** ** More on the service *)

Section RouterOutcomes.
Import Framework.

Lemma matches_full r req :
  is_match FULL r req = true ->
  path_matches (route_path r) (path req) = true /\
  method req ∈ route_methods r.
Proof.
  unfold is_match, matches.
  destruct (path_matches (route_path r) (path req)); [|discriminate].
  destruct (bool_decide (method req ∈ route_methods r)) eqn:Hm;
    [|discriminate].
  intros _. split; [reflexivity|]. now apply bool_decide_eq_true in Hm.
Qed.

Lemma matches_partial r req :
  is_match PARTIAL r req = true <->
  path_matches (route_path r) (path req) = true /\
  method req ∉ route_methods r.
Proof.
  unfold is_match, matches.
  destruct (path_matches (route_path r) (path req)).
  - destruct (bool_decide (method req ∈ route_methods r)) eqn:Hm.
    + apply bool_decide_eq_true in Hm.
      split; [discriminate|intros [_ Hn]; contradiction].
    + apply bool_decide_eq_false in Hm. now split.
  - split; [discriminate|intros [[=] _]].
Qed.

Lemma handle_partial r req :
  method req ∉ route_methods r -> status_code (handle r req) = 405.
Proof.
  intros Hm. unfold handle.
  now rewrite (bool_decide_eq_false_2 _ Hm).
Qed.

Lemma handle_full r req :
  method req ∈ route_methods r -> handle r req = respond (endpoint r).
Proof.
  intros Hm. unfold handle. now rewrite (bool_decide_eq_true_2 _ Hm).
Qed.

(** A response 200 comes from a route whose pattern matches the path and
    which accepts the method of the request. *)
Lemma dispatch_200_origin app req :
  status_code (dispatch app req) = 200 ->
  exists r, r ∈ routes app /\
            path_matches (route_path r) (path req) = true /\
            method req ∈ route_methods r /\
            dispatch app req = respond (endpoint r).
Proof.
  unfold dispatch.
  destruct (List.find (fun r => is_match FULL r req) (routes app))
    as [r|] eqn:Hfull.
  - apply find_some in Hfull as [Hin Hmatch].
    apply matches_full in Hmatch as [Hp Hm].
    intros _. exists r. rewrite handle_full by assumption.
    now rewrite list_elem_of_In.
  - destruct (List.find (fun r => is_match PARTIAL r req) (routes app))
      as [r|] eqn:Hpartial.
    + apply find_some in Hpartial as [_ Hmatch].
      apply matches_partial in Hmatch as [_ Hm].
      rewrite handle_partial by assumption. discriminate.
    + destruct (negb (String.eqb (path req) "/") && _); discriminate.
Qed.

(** A request for a served path with a method none of the routes that
    match the path accepts is answered 405. *)
Lemma dispatch_405 app req r :
  r ∈ routes app -> path_matches (route_path r) (path req) = true ->
  (forall r', r' ∈ routes app ->
              path_matches (route_path r') (path req) = true ->
              method req ∉ route_methods r') ->
  status_code (dispatch app req) = 405.
Proof.
  intros Hr Hp Hnone. unfold dispatch.
  rewrite find_no_match.
  - destruct (find_match (fun r => is_match PARTIAL r req) (routes app) r)
      as [r' Hfind]; [assumption| |].
    + apply matches_partial. split; [assumption|now apply Hnone].
    + rewrite Hfind. apply find_some in Hfind as [_ Hmatch].
      apply matches_partial in Hmatch as [_ Hm]. now apply handle_partial.
  - intros r' Hr'. destruct (is_match FULL r' req) eqn:Hfull; [|reflexivity].
    apply matches_full in Hfull as [Hp' Hm].
    now destruct (Hnone r' Hr' Hp').
Qed.

End RouterOutcomes.

(** X11. The service answers 200 to nothing but a GET of [/] or
    [/health], which is answered with the handler's JSON body, and a GET
    or HEAD of one of the framework's four documentation paths, the
    request path being, percent-decoded, the registered path itself or
    that path followed by a line feed; no other method and no other path
    is ever answered 200. *)
Theorem service_200_only_for_registered_reads method path :
  Framework.status_code (HelloWorld.serve method path) = 200 ->
  exists p,
    (path = p \/ path = p +:+ Py.LF) /\
    ((method = "GET" /\ p = "/" /\
      Framework.body (HelloWorld.serve method path)
      = Framework.JsonBody HelloWorld.root) \/
     (method = "GET" /\ p = "/health" /\
      Framework.body (HelloWorld.serve method path)
      = Framework.JsonBody HelloWorld.health_check) \/
     ((method = "GET" \/ method = "HEAD") /\
      p ∈ ["/openapi.json"; "/docs"; "/docs/oauth2-redirect"; "/redoc"] /\
      exists e,
        Framework.body (HelloWorld.serve method path) = Framework.Page e)).
Proof.
  intros H200. unfold HelloWorld.serve in *.
  apply dispatch_200_origin in H200 as (r & Hr & Hp & Hm & ->).
  simpl in Hp, Hm. apply path_matches_spec in Hp.
  exists (Framework.route_path r). split; [exact Hp|]. clear Hp.
  apply list_elem_of_In in Hr. simpl in Hr.
  destruct Hr as [<-|[<-|[<-|[<-|[<-|[<-|[]]]]]]]; simpl in *.
  1-4: right; right; split;
    [ apply elem_of_cons in Hm as [->|Hm];
        [now left|apply list_elem_of_singleton in Hm as ->; now right]
    | split; [apply (bool_decide_unpack _); exact I|eexists; reflexivity] ].
  - left. apply list_elem_of_singleton in Hm as ->. now repeat split.
  - right; left. apply list_elem_of_singleton in Hm as ->. now repeat split.
Qed.

Lemma service_200_only_for_registered_reads_witness :
  exists p,
    ("/health" +:+ Py.LF = p \/ "/health" +:+ Py.LF = p +:+ Py.LF) /\
    (("GET" = "GET" /\ p = "/" /\
      Framework.body (HelloWorld.serve "GET" ("/health" +:+ Py.LF))
      = Framework.JsonBody HelloWorld.root) \/
     ("GET" = "GET" /\ p = "/health" /\
      Framework.body (HelloWorld.serve "GET" ("/health" +:+ Py.LF))
      = Framework.JsonBody HelloWorld.health_check) \/
     (("GET" = "GET" \/ "GET" = "HEAD") /\
      p ∈ ["/openapi.json"; "/docs"; "/docs/oauth2-redirect"; "/redoc"] /\
      exists e,
        Framework.body (HelloWorld.serve "GET" ("/health" +:+ Py.LF))
        = Framework.Page e)).
Proof.
  apply (service_200_only_for_registered_reads "GET" ("/health" +:+ Py.LF)).
  reflexivity.
Defined.

(** X12. On every path the application registers, a request with a
    method the route does not accept is answered 405: any method but GET
    on [/] and [/health], any method but GET and HEAD on the documentation
    paths. *)
Theorem service_405_for_unaccepted_method method r :
  r ∈ Framework.routes HelloWorld.app ->
  method ∉ Framework.route_methods r ->
  Framework.status_code (HelloWorld.serve method (Framework.route_path r))
  = 405.
Proof.
  intros Hr Hm. unfold HelloWorld.serve.
  apply (dispatch_405 _ _ r); [assumption| |].
  { simpl. apply path_matches_spec. now left. }
  intros r' Hr' Hp. simpl in Hp.
  apply list_elem_of_In in Hr, Hr'. simpl in Hr, Hr'.
  destruct Hr as [<-|[<-|[<-|[<-|[<-|[<-|[]]]]]]];
    destruct Hr' as [<-|[<-|[<-|[<-|[<-|[<-|[]]]]]]];
    simpl in *; solve [assumption|discriminate].
Qed.

Lemma service_405_for_unaccepted_method_witness :
  Framework.status_code (HelloWorld.serve "DELETE" "/health") = 405.
Proof.
  apply (service_405_for_unaccepted_method "DELETE"
           {| Framework.route_path := "/health";
              Framework.route_methods := ["GET"];
              Framework.endpoint :=
                Framework.Handler HelloWorld.health_check |}).
  - apply list_elem_of_In. simpl. tauto.
  - apply (bool_decide_unpack _). exact I.
Defined.

(** X13. The eight unit tests hold of the application: every assertion
    of [tests/unit/test_hello_world.py] is satisfied by the client bound
    to [app]; on an application without the health route the suite
    fails. *)
Theorem unit_suite_passes :
  forallb (fun test => test UnitTests.client) UnitTests.suite = true /\
  forallb (fun test =>
             test {| UnitTests.client_app :=
                       Framework.get "/" HelloWorld.root
                         (Framework.new "Hello World API" "1.0.0") |})
    UnitTests.suite = false.
Proof. split; vm_compute; reflexivity. Qed.
